(** * snapcast-upnp: the Snapcast stream plugin for UPnP renderers

    A shallow embedding of [snapcast_upnp.py]: the property mapper
    ([get_properties]), the command dispatcher ([send_control]), the JSON-RPC
    helpers, the notification debouncer ([DmrEventHandler]) and the request
    loop of [_run], followed by the properties of the design document that
    are settled against them.

    Conventions of the embedding:
    - Python values that travel through JSON are the inductive [value];
      a dict is an association list in insertion order with string keys.
    - Python floats are Rocq's primitive binary64 floats, so [100 * level]
      is the very multiplication the interpreter performs.
    - An exception is a value of [exn]; code that may raise returns a
      [result], and code that also reads and changes the process runs in
      the monad [M], which returns an exception together with the
      process as it was when the exception escaped.
    - [json.loads] and [json.dumps] belong to Python's standard library.
      An inbound line is represented by what [json.loads] makes of it
      ([decoded]: a value, a [JSONDecodeError], or another exception);
      an outbound line by the object handed to [json.dumps]
      ([outline]). *)

From Stdlib Require Import String Ascii List ZArith Bool Lia Floats.
Import ListNotations.

Set Warnings "-register-all".

#[local] Open Scope string_scope.
#[local] Open Scope Z_scope.

(* ================================================================= *)
(** ** Python values, exceptions and the few built-ins the code uses *)

Module Py.

Inductive value : Type :=
| VNone
| VBool (b : bool)
| VInt (n : Z)
| VFloat (x : float)
| VStr (s : string)
| VList (items : list value)
| VDict (entries : list (string * value)).

Inductive exn : Type :=
| KeyError (key : string)
| TypeError
| AttributeError
| ValueError
| OverflowError
| UnicodeDecodeError
| RecursionError
| OSError
| UpnpError.

Inductive result (A : Type) : Type :=
| Ok (a : A)
| Raise (e : exn).
Arguments Ok {A} a.
Arguments Raise {A} e.

Definition bind {A B : Type} (r : result A) (k : A -> result B) : result B :=
  match r with
  | Ok a => k a
  | Raise e => Raise e
  end.

(** [d.get(key)] on an association list: the first entry wins; the
    dicts built here never repeat a key. *)
Fixpoint lookup {A : Type} (key : string) (entries : list (string * A)) : option A :=
  match entries with
  | [] => None
  | (k, v) :: rest => if String.eqb k key then Some v else lookup key rest
  end.

(** [obj[key]] for a string [key]: a dict answers or raises [KeyError];
    a list or a string wants an integer index, and the scalars are not
    subscriptable: [TypeError]. *)
Definition getitem (obj : value) (key : string) : result value :=
  match obj with
  | VDict entries =>
      match lookup key entries with
      | Some v => Ok v
      | None => Raise (KeyError key)
      end
  | _ => Raise TypeError
  end.

(** [s.rsplit(".", 1)]: [Some (a, b)] when [s] is [a ++ "." ++ b] with no
    dot in [b] (a list of two strings), [None] when [s] has no dot (the
    list [[s]]). *)
Fixpoint rsplit_dot (s : string) : option (string * string) :=
  match s with
  | EmptyString => None
  | String c rest =>
      match rsplit_dot rest with
      | Some (a, b) => Some (String c a, b)
      | None => if Ascii.eqb c "." then Some (EmptyString, rest) else None
      end
  end.

(** [a, b = obj.rsplit(".", 1)]: only a str has the method
    ([AttributeError] otherwise), and the unpacking needs exactly two
    parts ([ValueError] otherwise). *)
Definition rsplit_unpack (obj : value) : result (string * string) :=
  match obj with
  | VStr s =>
      match rsplit_dot s with
      | Some parts => Ok parts
      | None => Raise ValueError
      end
  | _ => Raise AttributeError
  end.

(** [int(x)] for a float: truncation toward zero; [ValueError] for a
    NaN and [OverflowError] for an infinity. *)
Definition float_int (x : float) : result Z :=
  match Prim2SF x with
  | S754_zero _ => Ok 0
  | S754_finite s m e =>
      let a := Z.shiftl (Z.pos m) e in Ok (if s then - a else a)
  | S754_infinity _ => Raise OverflowError
  | S754_nan => Raise ValueError
  end.

(** [x or 0.0] for an optional float: [None] and both zeros are falsy. *)
Definition float_or_zero (x : option float) : float :=
  match x with
  | Some f => if PrimFloat.eqb f 0%float then 0%float else f
  | None => 0%float
  end.

(** [s or ""] for an optional string. *)
Definition str_or_empty (s : option string) : string :=
  match s with
  | Some t => t
  | None => EmptyString
  end.

(** A dict is truthy when it has an entry, a list likewise, a number
    when it is not zero, a string when it is not empty. *)
Definition truthy (v : value) : bool :=
  match v with
  | VNone => false
  | VBool b => b
  | VInt n => negb (n =? 0)
  | VFloat x => negb (PrimFloat.eqb x 0%float)
  | VStr s => negb (String.eqb s EmptyString)
  | VList items => match items with [] => false | _ => true end
  | VDict entries => match entries with [] => false | _ => true end
  end.

(** Lists and dicts are unhashable: they cannot be looked up in a dict. *)
Definition hashable (v : value) : bool :=
  match v with
  | VList _ | VDict _ => false
  | _ => true
  end.

End Py.
Export Py.

(* ================================================================= *)
(** ** The renderer *)

(** Modelled from the spec: the transport-state enum of the renderer
    library ([async_upnp_client.profiles.dlna.TransportState], imported by
    the plugin), with the four states the plugin names and the remaining
    states of the enum, which the plugin never names. *)
Inductive TransportState : Type :=
| STOPPED
| PLAYING
| TRANSITIONING
| PAUSED_PLAYBACK
| PAUSED_RECORDING
| RECORDING
| NO_MEDIA_PRESENT
| VENDOR_DEFINED.

Definition TransportState_eq_dec (a b : TransportState) : {a = b} + {a <> b}.
Proof. decide equality. Defined.

Definition TransportState_eqb (a b : TransportState) : bool :=
  if TransportState_eq_dec a b then true else false.

(** Modelled from the spec: the snapshot the plugin reads from the
    renderer object ([DmrDevice] of the renderer library): the attributes
    [get_properties] and [send_control] touch, optional where the library
    may answer [None]. *)
Record DmrDevice : Type := {
  transport_state : option TransportState;
  has_volume_level : bool;
  volume_level : option float;
  has_volume_mute : bool;
  is_volume_muted : option bool;
  media_position : option Z;
  can_next : bool;
  can_previous : bool;
  can_play : bool;
  can_pause : bool;
  can_seek_abs_time : bool;
  can_seek_rel_time : bool;
  can_stop : bool;
  media_duration : option Z;
  media_artist : option string;
  media_album_name : option string;
  media_album_artist : option string;
  media_title : option string;
  media_image_url : option string
}.

(* ================================================================= *)
(** ** Constants of the plugin *)

Inductive SnapcastCommand : Type :=
| CONTROL
| SET_PROPERTY
| GET_PROPERTIES.

(** The [StrEnum] value of a command. *)
Definition SnapcastCommand_value (c : SnapcastCommand) : string :=
  match c with
  | CONTROL => "Control"
  | SET_PROPERTY => "SetProperty"
  | GET_PROPERTIES => "GetProperties"
  end.

Definition _SNAPCAST_PLAYER_INTERFACE : string := "Plugin.Stream.Player".
Definition _SNAPCAST_SUPPORTED_COMMANDS : list string :=
  map SnapcastCommand_value [CONTROL; SET_PROPERTY; GET_PROPERTIES].
Definition _SNAPCAST_STREAM_READY : string := "Plugin.Stream.Ready".
Definition _SNAPCAST_PLAYER_PROPERTIES : string := "Plugin.Stream.Player.Properties".

Definition _TRANSPORT_STATE_TO_PLAYBACK_STATE : list (TransportState * string) :=
  [ (PLAYING, "playing");
    (TRANSITIONING, "playing");
    (PAUSED_PLAYBACK, "paused");
    (STOPPED, "stopped") ].

(** [_TRANSPORT_STATE_TO_PLAYBACK_STATE.get(state, default)]; [None] is
    not a key of the table. *)
Fixpoint transport_table_get (table : list (TransportState * string))
    (state : option TransportState) (default : string) : string :=
  match table, state with
  | (k, v) :: rest, Some st =>
      if TransportState_eqb k st then v else transport_table_get rest state default
  | _, _ => default
  end.

(* ================================================================= *)
(** ** Property mapper *)

Definition opt_int (x : option Z) : value :=
  match x with Some n => VInt n | None => VNone end.

Definition opt_bool (x : option bool) : value :=
  match x with Some b => VBool b | None => VNone end.

(** [device.media_duration or 0.0]: a missing or zero duration becomes
    the float [0.0]. *)
Definition duration_or_zero (x : option Z) : value :=
  match x with
  | Some n => if n =? 0 then VFloat 0%float else VInt n
  | None => VFloat 0%float
  end.

(** [device.transport_state != TransportState.STOPPED]. *)
Definition not_stopped (device : DmrDevice) : bool :=
  match transport_state device with
  | Some st => negb (TransportState_eqb st STOPPED)
  | None => true
  end.

Definition metadata_of (device : DmrDevice) : value :=
  VDict
    [ ("duration", duration_or_zero (media_duration device));
      ("artist", VList [VStr (str_or_empty (media_artist device))]);
      ("album", VStr (str_or_empty (media_album_name device)));
      ("albumArtist", VList [VStr (str_or_empty (media_album_artist device))]);
      ("title", VStr (str_or_empty (media_title device)));
      ("artUrl", VStr (str_or_empty (media_image_url device))) ].

(** The [volume] entry: [int(100 * (level or 0.0))] when the renderer has
    a volume level, else [100]. *)
Definition volume_of (device : DmrDevice) : result Z :=
  if has_volume_level device
  then float_int (100 * float_or_zero (volume_level device))%float
  else Ok 100.

Definition get_properties (device : DmrDevice) : result (list (string * value)) :=
  bind (volume_of device) (fun volume =>
  let props :=
    [ ("playbackStatus",
        VStr (transport_table_get _TRANSPORT_STATE_TO_PLAYBACK_STATE
                (transport_state device) "stopped"));
      ("loopStatus", VStr "none");
      ("shuffle", VBool false);
      ("volume", VInt volume);
      ("mute", if has_volume_mute device
               then opt_bool (is_volume_muted device) else VBool false);
      ("rate", VFloat 1%float);
      ("position", opt_int (media_position device));
      ("canGoNext", VBool (can_next device));
      ("canGoPrevious", VBool (can_previous device));
      ("canPlay", VBool (can_play device));
      ("canPause", VBool (can_pause device));
      ("canSeek", VBool (can_seek_abs_time device && can_seek_rel_time device));
      ("canControl", VBool (can_stop device || can_play device)) ] in
  Ok (props ++ [ ("metadata",
                   if not_stopped device then metadata_of device else VNone) ])%list).

(* ================================================================= *)
(** ** Command dispatcher *)

(** The coroutine methods of the renderer that the plugin can invoke. *)
Inductive action : Type :=
| async_stop
| async_play
| async_pause
| async_previous
| async_next.

(** The dict [control_methods], built afresh by every call of
    [send_control] from the renderer as it is at that moment. *)
Definition control_methods (device : DmrDevice) : list (string * action) :=
  [ ("stop", async_stop);
    ("play", async_play);
    ("pause", async_pause);
    ("playPause",
      match transport_state device with
      | Some st => if TransportState_eqb st PAUSED_PLAYBACK
                   then async_play else async_pause
      | None => async_pause
      end);
    ("previous", async_previous);
    ("next", async_next) ].

(** [control_methods.get(command)]: the command comes from the request
    and may be any JSON value; an unhashable one raises [TypeError], a
    hashable one that is no key of the dict finds nothing. *)
Definition control_method (command : value) (device : DmrDevice) : result (option action) :=
  match command with
  | VStr name => Ok (lookup name (control_methods device))
  | _ => if hashable command then Ok None else Raise TypeError
  end.

(* ================================================================= *)
(** ** JSON-RPC lines *)

(** An outbound line: [json.dumps(obj) + "\n"], kept as [obj]. *)
Inductive outline : Type :=
| dumps_line (obj : list (string * value)).

(** [jsonrpc_response(result, *, id=1)]; a caller that omits [id] passes
    [default_id]. *)
Definition default_id : value := VInt 1.

Definition jsonrpc_response (result : value) (id : value) : outline :=
  dumps_line [ ("id", id); ("jsonrpc", VStr "2.0"); ("result", result) ].

(** [jsonrpc_command(method, params=None)]. *)
Definition jsonrpc_command (method : string) (params : value) : outline :=
  dumps_line
    ([ ("jsonrpc", VStr "2.0"); ("method", VStr method) ]
     ++ (if truthy params then [ ("params", params) ] else []))%list.

(* ================================================================= *)
(** ** The process: renderer, standard output, debouncer and call log *)

(** What the two coroutines of the plugin share.  [w_stdout_open] says
    whether a write to the output stream succeeds (otherwise it raises
    [OSError]); [w_task] is [DmrEventHandler._task]; [w_pending] are the
    notify tasks created and not yet run; [w_invoked] logs the renderer
    actions invoked, oldest first. *)
Record world : Type := {
  w_device : DmrDevice;
  w_stdout : list outline;
  w_stdout_open : bool;
  w_task : option nat;
  w_pending : list nat;
  w_created : nat;
  w_invoked : list action
}.

Definition set_device (d : DmrDevice) (w : world) : world :=
  {| w_device := d; w_stdout := w_stdout w; w_stdout_open := w_stdout_open w;
     w_task := w_task w; w_pending := w_pending w; w_created := w_created w;
     w_invoked := w_invoked w |}.

Definition set_stdout (out : list outline) (w : world) : world :=
  {| w_device := w_device w; w_stdout := out; w_stdout_open := w_stdout_open w;
     w_task := w_task w; w_pending := w_pending w; w_created := w_created w;
     w_invoked := w_invoked w |}.

Definition set_task (t : option nat) (w : world) : world :=
  {| w_device := w_device w; w_stdout := w_stdout w; w_stdout_open := w_stdout_open w;
     w_task := t; w_pending := w_pending w; w_created := w_created w;
     w_invoked := w_invoked w |}.

Definition set_pending (ts : list nat) (w : world) : world :=
  {| w_device := w_device w; w_stdout := w_stdout w; w_stdout_open := w_stdout_open w;
     w_task := w_task w; w_pending := ts; w_created := w_created w;
     w_invoked := w_invoked w |}.

Definition set_created (n : nat) (w : world) : world :=
  {| w_device := w_device w; w_stdout := w_stdout w; w_stdout_open := w_stdout_open w;
     w_task := w_task w; w_pending := w_pending w; w_created := n;
     w_invoked := w_invoked w |}.

Definition set_invoked (log : list action) (w : world) : world :=
  {| w_device := w_device w; w_stdout := w_stdout w; w_stdout_open := w_stdout_open w;
     w_task := w_task w; w_pending := w_pending w; w_created := w_created w;
     w_invoked := log |}.

(** Code that reads and changes the process and may raise: the exception
    comes with the process as it was when it was raised. *)
Definition M (A : Type) : Type := world -> result A * world.

Definition ret {A : Type} (a : A) : M A := fun w => (Ok a, w).

Definition raise {A : Type} (e : exn) : M A := fun w => (Raise e, w).

Definition bindM {A B : Type} (c : M A) (k : A -> M B) : M B :=
  fun w =>
    match c w with
    | (Ok a, w') => k a w'
    | (Raise e, w') => (Raise e, w')
    end.

Definition lift {A : Type} (r : result A) : M A := fun w => (r, w).

Declare Scope run_scope.
Delimit Scope run_scope with run.
Notation "x <- c ;; k" := (bindM c (fun x => k))
  (at level 61, c at next level, right associativity) : run_scope.
Notation "c ;; k" := (bindM c (fun _ => k))
  (at level 61, right associativity) : run_scope.
#[local] Open Scope run_scope.

(** [stdout.write(line)]. *)
Definition write (line : outline) : M unit :=
  fun w =>
    if w_stdout_open w
    then (Ok tt, set_stdout (w_stdout w ++ [line]) w)
    else (Raise OSError, w).

(** [get_properties(device)] on the renderer as it is now. *)
Definition current_properties : M value :=
  fun w => (bind (get_properties (w_device w)) (fun props => Ok (VDict props)), w).

(* ================================================================= *)
(** ** Notification debouncer ([DmrEventHandler]) *)

(** [asyncio.create_task(self._notify())]: a new task, numbered by
    creation, is queued and remembered in [_task]. *)
Definition create_task (w : world) : world :=
  let t := w_created w in
  set_task (Some t) (set_pending (w_pending w ++ [t])%list (set_created (S t) w)).

(** [DmrEventHandler.callback(service, state_variables)]. *)
Definition callback (state_variables : list string) (w : world) : world :=
  match state_variables with
  | [] => w
  | _ :: _ =>
      match w_task w with
      | None => create_task w
      | Some _ => w
      end
  end.

(** [DmrEventHandler._notify()], from the moment its sleep of 1.5 s is
    over. *)
Definition _notify : M unit :=
  props <- current_properties ;;
  write (jsonrpc_command _SNAPCAST_PLAYER_PROPERTIES props) ;;
  (fun w => (Ok tt, set_task None w)).

(** The event loop resumes task [t]: the task leaves the queue and runs
    to its end; an exception ends the task and goes no further. *)
Definition run_task (t : nat) (w : world) : world :=
  if existsb (Nat.eqb t) (w_pending w)
  then snd (_notify (set_pending (filter (fun u => negb (Nat.eqb t u)) (w_pending w)) w))
  else w.

(** What can happen to the debouncer between two moments of the event
    loop. *)
Inductive event : Type :=
| renderer_event (state_variables : list string)
| sleep_over (t : nat)
| renderer_changed (d : DmrDevice)
| stdout_status (open : bool).

Definition step (ev : event) (w : world) : world :=
  match ev with
  | renderer_event state_variables => callback state_variables w
  | sleep_over t => run_task t w
  | renderer_changed d => set_device d w
  | stdout_status open =>
      {| w_device := w_device w; w_stdout := w_stdout w; w_stdout_open := open;
         w_task := w_task w; w_pending := w_pending w; w_created := w_created w;
         w_invoked := w_invoked w |}
  end.

Definition run_events (evs : list event) (w : world) : world :=
  fold_left (fun acc ev => step ev acc) evs w.

(** The process when [connect_device] has returned: the handler has no
    task, nothing was written nor invoked. *)
Definition initial_world (d : DmrDevice) : world :=
  {| w_device := d; w_stdout := []; w_stdout_open := true;
     w_task := None; w_pending := []; w_created := 0%nat; w_invoked := [] |}.

(* ================================================================= *)
(** ** Request router (the loop of [_run]) *)

(** What [json.loads(line)] makes of an inbound line, which the stream
    hands over as bytes: a value; a [JSONDecodeError] for text that is
    not JSON; or another exception, which is no [JSONDecodeError]:
    [UnicodeDecodeError] for bytes that are not UTF-8, [RecursionError]
    for nesting that is too deep, [ValueError] for an integer with too
    many digits. *)
Inductive decoded : Type :=
| JSONDecodeError
| Decoded (request : value)
| DecodeRaises (e : exn).

Section Router.

(** The renderer's answer to an action: the renderer afterwards, or the
    error its library raises. *)
Variable perform : action -> DmrDevice -> result DmrDevice.

(** [await method()]. *)
Definition invoke (a : action) : M unit :=
  fun w =>
    let w' := set_invoked (w_invoked w ++ [a])%list w in
    match perform a (w_device w) with
    | Ok d => (Ok tt, set_device d w')
    | Raise e => (Raise e, w')
    end.

(** [send_control(command, device)]. *)
Definition send_control (command : value) : M unit :=
  fun w =>
    (method <- lift (control_method command (w_device w)) ;;
     match method with
     | Some a => invoke a
     | None => ret tt
     end) w.

(** The body of the loop after [json.loads] has succeeded; returning
    [tt] is reaching the next iteration (by [continue] or by the end of
    the body). *)
Definition handle_request (request : value) : M unit :=
  method <- lift (getitem request "method") ;;
  parts <- lift (rsplit_unpack method) ;;
  let '(interface, command) := parts in
  if negb (String.eqb interface _SNAPCAST_PLAYER_INTERFACE) then ret tt
  else if negb (existsb (String.eqb command) _SNAPCAST_SUPPORTED_COMMANDS) then ret tt
  else
    (if String.eqb command (SnapcastCommand_value GET_PROPERTIES)
     then props <- current_properties ;;
          write (jsonrpc_response props default_id)
     else ret tt) ;;
    (if String.eqb command (SnapcastCommand_value CONTROL)
     then params <- lift (getitem request "params") ;;
          command' <- lift (getitem params "command") ;;
          send_control command' ;;
          id <- lift (getitem request "id") ;;
          write (jsonrpc_response (VStr "ok") id)
     else ret tt).

(** One iteration of the loop: [except json.JSONDecodeError] goes on
    with the next line, and lets any other exception of [json.loads]
    escape. *)
Definition handle_line (line : decoded) : M unit :=
  match line with
  | JSONDecodeError => ret tt
  | Decoded request => handle_request request
  | DecodeRaises e => raise e
  end.

(** The loop over the lines that arrive; an exception that escapes an
    iteration ends it. *)
Fixpoint serve (lines : list decoded) : M unit :=
  match lines with
  | [] => ret tt
  | line :: rest => handle_line line ;; serve rest
  end.

(** [_run] from the ready notification on. *)
Definition _run (lines : list decoded) : M unit :=
  write (jsonrpc_command _SNAPCAST_STREAM_READY VNone) ;;
  serve lines.

End Router.

(* ================================================================= *)
(** ** Vocabulary of the design document *)

(** The [playbackStatus] and [metadata] entries of a properties object. *)
Definition playbackStatus_of (props : list (string * value)) : option value :=
  lookup "playbackStatus" props.

(** Metadata is present when the entry is a populated object. *)
Definition metadata_present (props : list (string * value)) : bool :=
  match lookup "metadata" props with
  | Some (VDict (_ :: _)) => true
  | _ => false
  end.

(** The [id] member of an outbound line. *)
Definition id_of (line : outline) : option value :=
  match line with
  | dumps_line obj => lookup "id" obj
  end.

(** Following the design document's words, [round(100 x level)]: the
    nearest integer to a float, a tie going to the even one (Python's
    [round]); to be compared with [float_int], which the code calls. *)
Definition float_round (x : float) : result Z :=
  match Prim2SF x with
  | S754_zero _ => Ok 0
  | S754_finite s m e =>
      let a :=
        if 0 <=? e then Z.shiftl (Z.pos m) e
        else
          let d := 2 ^ (- e) in
          let q := Z.pos m / d in
          match 2 * (Z.pos m mod d) ?= d with
          | Lt => q
          | Gt => q + 1
          | Eq => if Z.even q then q else q + 1
          end in
      Ok (if s then - a else a)
  | S754_infinity _ => Raise OverflowError
  | S754_nan => Raise ValueError
  end.

(** The renderer library documents the volume level as a number between
    0 and 1; a missing level is allowed. *)
Definition level_in_unit_range (device : DmrDevice) : Prop :=
  match volume_level device with
  | Some l => (0 <=? l)%float = true /\ (l <=? 1)%float = true
  | None => True
  end.

(** A command name has no separator in it. *)
Definition no_dot (s : string) : Prop :=
  ~ In "."%char (list_ascii_of_string s).

(** The lines the router drops in its steps 1 to 3: a line on which
    [json.loads] raises [JSONDecodeError]; a method [interface.command]
    of another interface; a command of the player interface that is not
    supported. *)
Inductive dropped_line : decoded -> Prop :=
| drop_not_json :
    dropped_line JSONDecodeError
| drop_interface (request : value) (interface command : string) :
    getitem request "method" = Ok (VStr (interface ++ "." ++ command)) ->
    no_dot command ->
    interface <> _SNAPCAST_PLAYER_INTERFACE ->
    dropped_line (Decoded request)
| drop_command (request : value) (command : string) :
    getitem request "method"
      = Ok (VStr (_SNAPCAST_PLAYER_INTERFACE ++ "." ++ command)) ->
    no_dot command ->
    ~ In command _SNAPCAST_SUPPORTED_COMMANDS ->
    dropped_line (Decoded request).

(** The debouncer's invariant: the tasks still to run are at most the
    one [_task] remembers. *)
Definition coalesced (w : world) : Prop :=
  match w_task w with
  | Some t => w_pending w = [t] \/ w_pending w = []
  | None => w_pending w = []
  end.

(** [playPause] as the design document resolves it. *)
Definition play_or_pause (device : DmrDevice) : action :=
  match transport_state device with
  | Some PAUSED_PLAYBACK => async_play
  | _ => async_pause
  end.

(* ================================================================= *)
(** ** Sample data *)

(** A renderer in transport state [st] at volume level [level]. *)
Definition sample_device (st : option TransportState) (level : option float) : DmrDevice :=
  {| transport_state := st;
     has_volume_level := true;
     volume_level := level;
     has_volume_mute := true;
     is_volume_muted := Some false;
     media_position := Some 12;
     can_next := true;
     can_previous := true;
     can_play := true;
     can_pause := true;
     can_seek_abs_time := true;
     can_seek_rel_time := false;
     can_stop := true;
     media_duration := Some 215;
     media_artist := Some "Artist";
     media_album_name := Some "Album";
     media_album_artist := None;
     media_title := Some "Title";
     media_image_url := None |}.

(** The same renderer without volume support; the level is still there. *)
Definition sample_device_no_volume (level : option float) : DmrDevice :=
  {| transport_state := Some PLAYING;
     has_volume_level := false;
     volume_level := level;
     has_volume_mute := false;
     is_volume_muted := None;
     media_position := None;
     can_next := false;
     can_previous := false;
     can_play := true;
     can_pause := true;
     can_seek_abs_time := false;
     can_seek_rel_time := false;
     can_stop := true;
     media_duration := None;
     media_artist := None;
     media_album_name := None;
     media_album_artist := None;
     media_title := None;
     media_image_url := None |}.

(** A renderer that obeys at once: its transport state follows the
    action, and no action fails. *)
Definition sample_perform (a : action) (d : DmrDevice) : result DmrDevice :=
  let goto st :=
    {| transport_state := Some st;
       has_volume_level := has_volume_level d;
       volume_level := volume_level d;
       has_volume_mute := has_volume_mute d;
       is_volume_muted := is_volume_muted d;
       media_position := media_position d;
       can_next := can_next d;
       can_previous := can_previous d;
       can_play := can_play d;
       can_pause := can_pause d;
       can_seek_abs_time := can_seek_abs_time d;
       can_seek_rel_time := can_seek_rel_time d;
       can_stop := can_stop d;
       media_duration := media_duration d;
       media_artist := media_artist d;
       media_album_name := media_album_name d;
       media_album_artist := media_album_artist d;
       media_title := media_title d;
       media_image_url := media_image_url d |} in
  match a with
  | async_stop => Ok (goto STOPPED)
  | async_play => Ok (goto PLAYING)
  | async_pause => Ok (goto PAUSED_PLAYBACK)
  | async_previous | async_next => Ok d
  end.

Definition sample_world (st : TransportState) : world :=
  initial_world (sample_device (Some st) (Some 0.5%float)).

(** Requests of the host, as [json.loads] returns them. *)
Definition request_of (id : option value) (method : string) (params : option value) : value :=
  VDict
    ((match id with Some i => [ ("id", i) ] | None => [] end)
     ++ [ ("jsonrpc", VStr "2.0"); ("method", VStr method) ]
     ++ (match params with Some p => [ ("params", p) ] | None => [] end))%list.

Definition get_properties_request (id : option value) : value :=
  request_of id "Plugin.Stream.Player.GetProperties" None.

Definition control_request (id : option value) (command : string) : value :=
  request_of id "Plugin.Stream.Player.Control"
    (Some (VDict [ ("command", VStr command) ])).

Definition set_property_request : value :=
  request_of (Some (VInt 3)) "Plugin.Stream.Player.SetProperty"
    (Some (VDict [ ("volume", VInt 40) ])).

(** The debouncer after one renderer event whose notification could not
    be written: the event, the output stream failing, the task's sleep
    ending. *)
Definition world_after_failed_write : world :=
  run_events
    [ renderer_event [ "TransportState" ]; stdout_status false; sleep_over 0%nat ]
    (sample_world PLAYING).

(** Control requests that are JSON objects of the player interface but
    carry no [params], or [params] without a [command]. *)
Definition control_without_params : value :=
  request_of (Some (VInt 5)) "Plugin.Stream.Player.Control" None.

Definition control_without_command : value :=
  request_of (Some (VInt 5)) "Plugin.Stream.Player.Control" (Some (VDict [])).

(* ================================================================= *)
(** ** Vocabulary for the properties of the whole plugin *)

(** The keys of [control_methods]. *)
Definition control_names : list string :=
  [ "stop"; "play"; "pause"; "playPause"; "previous"; "next" ].

(** The keys of a properties object, in the order [get_properties]
    inserts them. *)
Definition property_keys : list string :=
  [ "playbackStatus"; "loopStatus"; "shuffle"; "volume"; "mute"; "rate";
    "position"; "canGoNext"; "canGoPrevious"; "canPlay"; "canPause";
    "canSeek"; "canControl"; "metadata" ].

(** What one iteration of the request loop may do to the process: write
    at most one line after those already written, invoke at most one
    renderer action (the renderer itself changes only through it), and
    leave the debouncer and the state of the output stream alone. *)
Definition request_effect (w w' : world) : Prop :=
  (exists out : list outline,
      w_stdout w' = (w_stdout w ++ out)%list /\ (length out <= 1)%nat)
  /\ (exists acts : list action,
        w_invoked w' = (w_invoked w ++ acts)%list
        /\ (length acts <= 1)%nat
        /\ (acts = [] -> w_device w' = w_device w))
  /\ w_task w' = w_task w
  /\ w_pending w' = w_pending w
  /\ w_created w' = w_created w
  /\ w_stdout_open w' = w_stdout_open w.

(** A burst: renderer events and changes of the renderer, with no sleep
    ending and no change of the output stream in between. *)
Definition is_burst (evs : list event) : bool :=
  forallb (fun ev => match ev with
                     | renderer_event _ | renderer_changed _ => true
                     | _ => false
                     end) evs.

(** A burst fires when one of its events carries a state variable. *)
Definition fires (evs : list event) : bool :=
  existsb (fun ev => match ev with
                     | renderer_event (_ :: _) => true
                     | _ => false
                     end) evs.

(** The renderer at the end of a burst that began with renderer [d]. *)
Definition burst_device (evs : list event) (d : DmrDevice) : DmrDevice :=
  fold_left (fun acc ev => match ev with
                           | renderer_changed d' => d'
                           | _ => acc
                           end) evs d.

(** Bursts one after the other, each followed by the end of the sleep of
    the task it created; [t] numbers the first task. *)
Fixpoint rounds (bursts : list (list event)) (t : nat) : list event :=
  match bursts with
  | [] => []
  | burst :: rest => (burst ++ sleep_over t :: rounds rest (S t))%list
  end.

(** The properties of a renderer can be mapped. *)
Definition mappable (d : DmrDevice) : Prop :=
  exists props, get_properties d = Ok props.

(** Every renderer that shows up in a burst can be mapped. *)
Definition burst_mappable (evs : list event) : Prop :=
  forall d : DmrDevice, In (renderer_changed d) evs -> mappable d.

(** The notification of the properties [props]. *)
Definition properties_line (props : list (string * value)) : outline :=
  dumps_line
    [ ("jsonrpc", VStr "2.0");
      ("method", VStr "Plugin.Stream.Player.Properties");
      ("params", VDict props) ].

(** The ready notification. *)
Definition ready_line : outline :=
  dumps_line [ ("jsonrpc", VStr "2.0"); ("method", VStr "Plugin.Stream.Ready") ].

(* ================================================================= *)
(** * Properties *)

(** ** Property mapper *)

Lemma get_properties_returns (device : DmrDevice) (volume : Z) :
  volume_of device = Ok volume ->
  exists props, get_properties device = Ok props
    /\ lookup "volume" props = Some (VInt volume).
Proof.
  intros Hv. unfold get_properties. rewrite Hv. cbn [bind].
  eexists. split; [reflexivity | reflexivity].
Qed.

(** C7. For every transport state of the renderer, also a missing or an
    unnamed one, the mapper returns a [playbackStatus] that is one of
    "playing", "paused" and "stopped": PLAYING and TRANSITIONING give
    "playing", PAUSED_PLAYBACK gives "paused", every other state gives
    "stopped"; the look-up raises nothing (the mapper returns as soon as
    its volume entry can be computed, whatever the state). *)
Theorem playbackStatus_total (device : DmrDevice) (volume : Z) :
  volume_of device = Ok volume ->
  exists props,
    get_properties device = Ok props
    /\ playbackStatus_of props
       = Some (VStr match transport_state device with
                    | Some PLAYING | Some TRANSITIONING => "playing"
                    | Some PAUSED_PLAYBACK => "paused"
                    | _ => "stopped"
                    end).
Proof.
  intros Hv. unfold get_properties. rewrite Hv. cbn [bind].
  eexists. split; [reflexivity |].
  destruct (transport_state device) as [[] |]; reflexivity.
Qed.

Lemma playbackStatus_total_witness :
  exists props,
    get_properties (sample_device (Some VENDOR_DEFINED) (Some 0.5%float)) = Ok props
    /\ playbackStatus_of props = Some (VStr "stopped").
Proof.
  apply (playbackStatus_total (sample_device (Some VENDOR_DEFINED) (Some 0.5%float)) 50).
  vm_compute. reflexivity.
Defined.

(** C1, as the code has it. Whenever the mapper returns, [metadata] is a
    populated object exactly when the transport state is not STOPPED;
    otherwise it is null and [playbackStatus] is "stopped"; and a
    [playbackStatus] other than "stopped" always comes with metadata. *)
Theorem metadata_follows_transport_state (device : DmrDevice) (volume : Z) :
  volume_of device = Ok volume ->
  exists props,
    get_properties device = Ok props
    /\ (metadata_present props = true <-> transport_state device <> Some STOPPED)
    /\ (metadata_present props = false ->
        lookup "metadata" props = Some VNone
        /\ playbackStatus_of props = Some (VStr "stopped"))
    /\ (playbackStatus_of props <> Some (VStr "stopped") ->
        metadata_present props = true).
Proof.
  intros Hv. unfold get_properties. rewrite Hv. cbn [bind].
  eexists. split; [reflexivity |].
  destruct (transport_state device) as [[] |] eqn:Hst;
    unfold metadata_present, playbackStatus_of, not_stopped; rewrite ?Hst; cbn;
    repeat split; intros; try reflexivity; try discriminate; try congruence.
Qed.

Lemma metadata_follows_transport_state_witness :
  exists props,
    get_properties (sample_device (Some PAUSED_PLAYBACK) (Some 0.5%float)) = Ok props
    /\ (metadata_present props = true
        <-> transport_state (sample_device (Some PAUSED_PLAYBACK) (Some 0.5%float))
            <> Some STOPPED)
    /\ (metadata_present props = false ->
        lookup "metadata" props = Some VNone
        /\ playbackStatus_of props = Some (VStr "stopped"))
    /\ (playbackStatus_of props <> Some (VStr "stopped") ->
        metadata_present props = true).
Proof.
  apply (metadata_follows_transport_state
           (sample_device (Some PAUSED_PLAYBACK) (Some 0.5%float)) 50).
  vm_compute. reflexivity.
Defined.

(** C1, as stated, fails: a renderer with no media present is reported
    with [playbackStatus] "stopped" and with populated metadata. *)
Lemma metadata_present_while_status_stopped :
  exists props,
    get_properties (sample_device (Some NO_MEDIA_PRESENT) (Some 0.5%float)) = Ok props
    /\ playbackStatus_of props = Some (VStr "stopped")
    /\ metadata_present props = true.
Proof.
  eexists. split; [vm_compute; reflexivity |]. split; reflexivity.
Qed.

(** ** Command dispatcher *)

Lemma control_method_playPause (device : DmrDevice) :
  control_method (VStr "playPause") device = Ok (Some (play_or_pause device)).
Proof.
  unfold control_method, control_methods, play_or_pause. cbn.
  destruct (transport_state device) as [[] |]; reflexivity.
Qed.

(** C6. Dispatching "playPause" reads the renderer's transport state at
    that call: paused invokes play, any other state (or none) invokes
    pause; a second dispatch decides again, from the renderer as the
    first one left it. *)
Theorem playPause_resolved_at_dispatch
    (perform : action -> DmrDevice -> result DmrDevice) (w : world) :
  send_control perform (VStr "playPause") w
    = invoke perform (match transport_state (w_device w) with
                      | Some PAUSED_PLAYBACK => async_play
                      | _ => async_pause
                      end) w
  /\ forall w1 : world,
       send_control perform (VStr "playPause") w = (Ok tt, w1) ->
       (send_control perform (VStr "playPause") ;;
        send_control perform (VStr "playPause")) w
         = invoke perform (match transport_state (w_device w1) with
                           | Some PAUSED_PLAYBACK => async_play
                           | _ => async_pause
                           end) w1.
Proof.
  assert (Hone : forall v : world,
             send_control perform (VStr "playPause") v
               = invoke perform (play_or_pause (w_device v)) v).
  { intros v. unfold send_control, bindM, lift.
    rewrite control_method_playPause. reflexivity. }
  split.
  - apply Hone.
  - intros w1 H1. unfold bindM at 1. rewrite H1. apply Hone.
Qed.

Lemma playPause_resolved_at_dispatch_witness :
  (send_control sample_perform (VStr "playPause") ;;
   send_control sample_perform (VStr "playPause")) (sample_world PAUSED_PLAYBACK)
    = invoke sample_perform
        (match transport_state (w_device (sample_world PLAYING)) with
         | Some PAUSED_PLAYBACK => async_play
         | _ => async_pause
         end)
        (set_invoked [ async_play ] (sample_world PLAYING)).
Proof.
  apply (proj2 (playPause_resolved_at_dispatch sample_perform
                  (sample_world PAUSED_PLAYBACK))
           (set_invoked [ async_play ] (sample_world PLAYING))).
  vm_compute. reflexivity.
Defined.

(** Two toggles in a row on a paused renderer: play, then pause. *)
Example playPause_twice :
  w_invoked (snd ((send_control sample_perform (VStr "playPause") ;;
                   send_control sample_perform (VStr "playPause"))
                    (sample_world PAUSED_PLAYBACK)))
    = [ async_play; async_pause ].
Proof. vm_compute. reflexivity. Qed.

(** ** Request router *)

Lemma no_dot_rsplit (s : string) : no_dot s -> rsplit_dot s = None.
Proof.
  unfold no_dot. induction s as [| c s IH]; intros H; cbn in *.
  - reflexivity.
  - rewrite IH by tauto.
    destruct (Ascii.eqb c ".") eqn:E; [| reflexivity].
    apply Ascii.eqb_eq in E. exfalso. apply H. left. exact E.
Qed.

Lemma rsplit_dot_app (interface command : string) :
  no_dot command ->
  rsplit_dot (interface ++ "." ++ command) = Some (interface, command).
Proof.
  intros H. induction interface as [| c i IH]; cbn.
  - rewrite (no_dot_rsplit command H). reflexivity.
  - cbn in IH. rewrite IH. reflexivity.
Qed.

Lemma unsupported_existsb (command : string) :
  ~ In command _SNAPCAST_SUPPORTED_COMMANDS ->
  existsb (String.eqb command) _SNAPCAST_SUPPORTED_COMMANDS = false.
Proof.
  intros H. destruct (existsb _ _) eqn:E; [| reflexivity].
  apply existsb_exists in E. destruct E as [x [Hin Hx]].
  apply String.eqb_eq in Hx. subst x. contradiction.
Qed.

Lemma serve_cons (perform : action -> DmrDevice -> result DmrDevice)
    (line : decoded) (rest : list decoded) (w w' : world) :
  handle_line perform line w = (Ok tt, w') ->
  serve perform (line :: rest) w = serve perform rest w'.
Proof.
  intros H. cbn [serve]. unfold bindM. rewrite H. reflexivity.
Qed.

Lemma serve_raise (perform : action -> DmrDevice -> result DmrDevice)
    (line : decoded) (rest : list decoded) (w w' : world) (e : exn) :
  handle_line perform line w = (Raise e, w') ->
  serve perform (line :: rest) w = (Raise e, w').
Proof.
  intros H. cbn [serve]. unfold bindM. rewrite H. reflexivity.
Qed.

(** C3, as the code has it. A line on which [json.loads] raises
    [JSONDecodeError], or whose method is [interface.command] with
    another interface, or with the player interface and a command that
    is not supported, makes the router write nothing and invoke nothing,
    raises no exception, and leaves the loop to go on with the lines
    that follow. A line that is JSON but whose method cannot be split
    into interface and command (not an object, no method, a method that
    is no string or has no dot) raises the exception of that step, which
    nothing catches: the loop ends there with nothing written. *)
Theorem dropped_line_is_skipped
    (perform : action -> DmrDevice -> result DmrDevice)
    (line : decoded) (w : world) :
  (dropped_line line ->
   handle_line perform line w = (Ok tt, w)
   /\ forall rest : list decoded,
        serve perform (line :: rest) w = serve perform rest w)
  /\ (forall (request : value) (e : exn),
        line = Decoded request ->
        bind (getitem request "method") rsplit_unpack = Raise e ->
        handle_line perform line w = (Raise e, w)
        /\ forall rest : list decoded,
             serve perform (line :: rest) w = (Raise e, w)).
Proof.
  split.
  - intros Hdrop.
    assert (H : handle_line perform line w = (Ok tt, w)).
    { destruct Hdrop as [| request interface command Hm Hc Hi
                         | request command Hm Hc Hs]; cbn [handle_line].
      - reflexivity.
      - unfold handle_request, bindM, lift. rewrite Hm. cbn [rsplit_unpack].
        rewrite (rsplit_dot_app _ _ Hc).
        apply String.eqb_neq in Hi. rewrite Hi. reflexivity.
      - unfold handle_request, bindM, lift. rewrite Hm. cbn [rsplit_unpack].
        rewrite (rsplit_dot_app _ _ Hc). rewrite String.eqb_refl. cbn [negb].
        rewrite (unsupported_existsb _ Hs). reflexivity. }
    split; [exact H |].
    intros rest. apply serve_cons. exact H.
  - intros request e Hline Hsplit. subst line.
    assert (H : handle_line perform (Decoded request) w = (Raise e, w)).
    { cbn [handle_line]. unfold handle_request, bindM, lift.
      destruct (getitem request "method") as [m | e1]; cbn [bind] in Hsplit.
      - destruct (rsplit_unpack m) as [[interface command] | e2];
          [discriminate Hsplit | injection Hsplit as ->; reflexivity].
      - injection Hsplit as ->. reflexivity. }
    split; [exact H |].
    intros rest. apply serve_raise. exact H.
Qed.

Lemma dropped_line_is_skipped_witness :
  (handle_line sample_perform
       (Decoded (request_of (Some (VInt 4)) "Foo.Bar" None)) (sample_world PLAYING)
     = (Ok tt, sample_world PLAYING)
   /\ forall rest : list decoded,
        serve sample_perform
            (Decoded (request_of (Some (VInt 4)) "Foo.Bar" None) :: rest)
            (sample_world PLAYING)
          = serve sample_perform rest (sample_world PLAYING))
  /\ (handle_line sample_perform
         (Decoded (request_of (Some (VInt 4)) "Foo" None)) (sample_world PLAYING)
       = (Raise ValueError, sample_world PLAYING)
      /\ forall rest : list decoded,
           serve sample_perform
               (Decoded (request_of (Some (VInt 4)) "Foo" None) :: rest)
               (sample_world PLAYING)
             = (Raise ValueError, sample_world PLAYING)).
Proof.
  split.
  - apply (proj1 (dropped_line_is_skipped sample_perform
                    (Decoded (request_of (Some (VInt 4)) "Foo.Bar" None))
                    (sample_world PLAYING))).
    apply (drop_interface _ "Foo" "Bar").
    + reflexivity.
    + unfold no_dot. cbn. intros [H | [H | [H | []]]]; discriminate H.
    + discriminate.
  - apply (proj2 (dropped_line_is_skipped sample_perform
                    (Decoded (request_of (Some (VInt 4)) "Foo" None))
                    (sample_world PLAYING))
             (request_of (Some (VInt 4)) "Foo" None) ValueError).
    + reflexivity.
    + reflexivity.
Defined.

(** C3, as stated, fails. A line of bytes that are not UTF-8 is not
    valid JSON, yet [json.loads] raises [UnicodeDecodeError], which the
    handler of [JSONDecodeError] does not catch; and a JSON request
    whose method has no dot cannot be unpacked. Either line ends the
    loop: the request that follows is never answered. *)
Lemma undecodable_line_ends_loop :
  serve sample_perform
      [ DecodeRaises UnicodeDecodeError;
        Decoded (get_properties_request (Some (VInt 1))) ]
      (sample_world PLAYING)
    = (Raise UnicodeDecodeError, sample_world PLAYING)
  /\ serve sample_perform
       [ Decoded (request_of (Some (VInt 1)) "Foo" None);
         Decoded (get_properties_request (Some (VInt 2))) ]
       (sample_world PLAYING)
     = (Raise ValueError, sample_world PLAYING).
Proof. split; reflexivity. Qed.

(** A dropped line between two requests: the malformed line and the
    unsupported command leave no trace, the requests around them are
    answered. *)
Example valid_lines_after_dropped_ones :
  map id_of
    (w_stdout (snd (serve sample_perform
                      [ Decoded (control_request (Some (VInt 1)) "pause");
                        JSONDecodeError;
                        Decoded (request_of (Some (VInt 2))
                                   "Plugin.Stream.Player.Seek" None);
                        Decoded (control_request (Some (VInt 3)) "play") ]
                      (sample_world PLAYING))))
    = [ Some (VInt 1); Some (VInt 3) ].
Proof. vm_compute. reflexivity. Qed.

(** The exceptions of the splitting step: a method without a separator
    cannot be unpacked, and a request without a method has no such key;
    both escape the loop. *)
Example method_without_separator :
  forall (perform : action -> DmrDevice -> result DmrDevice) (w : world),
    handle_line perform (Decoded (request_of None "Foo" None)) w
      = (Raise ValueError, w)
    /\ handle_line perform (Decoded (VDict [ ("id", VInt 1) ])) w
       = (Raise (KeyError "method"), w).
Proof. intros perform w. split; reflexivity. Qed.

(** C9. A SetProperty request of the player interface invokes no
    renderer action and writes no line; the loop goes on with the next
    request. *)
Theorem set_property_is_inert
    (perform : action -> DmrDevice -> result DmrDevice)
    (request : value) (w : world) :
  getitem request "method" = Ok (VStr "Plugin.Stream.Player.SetProperty") ->
  handle_line perform (Decoded request) w = (Ok tt, w)
  /\ forall rest : list decoded,
       serve perform (Decoded request :: rest) w = serve perform rest w.
Proof.
  intros Hm.
  assert (H : handle_line perform (Decoded request) w = (Ok tt, w)).
  { cbn [handle_line]. unfold handle_request, bindM, lift. rewrite Hm.
    reflexivity. }
  split; [exact H |].
  intros rest. apply serve_cons. exact H.
Qed.

Lemma set_property_is_inert_witness :
  handle_line sample_perform (Decoded set_property_request) (sample_world PLAYING)
    = (Ok tt, sample_world PLAYING)
  /\ forall rest : list decoded,
       serve sample_perform (Decoded set_property_request :: rest) (sample_world PLAYING)
         = serve sample_perform rest (sample_world PLAYING).
Proof.
  apply (set_property_is_inert sample_perform set_property_request
           (sample_world PLAYING)).
  reflexivity.
Defined.

(** C10. There are JSON lines that pass the interface and command checks
    and still end the loop: a Control request without [params], or with
    [params] that has no [command], raises a [KeyError] that nothing
    catches; no line is written, no action invoked, and the lines that
    follow are never read. *)
Theorem control_without_command_ends_loop
    (perform : action -> DmrDevice -> result DmrDevice)
    (w : world) (rest : list decoded) :
  serve perform (Decoded control_without_params :: rest) w
    = (Raise (KeyError "params"), w)
  /\ serve perform (Decoded control_without_command :: rest) w
     = (Raise (KeyError "command"), w).
Proof.
  split; apply serve_raise; reflexivity.
Qed.

(** The loop answers a GetProperties request with the default id and
    echoes the id of a Control request. *)
Lemma get_properties_reply
    (perform : action -> DmrDevice -> result DmrDevice)
    (request : value) (w : world) (props : list (string * value)) :
  getitem request "method" = Ok (VStr "Plugin.Stream.Player.GetProperties") ->
  get_properties (w_device w) = Ok props ->
  w_stdout_open w = true ->
  handle_request perform request w
    = (Ok tt, set_stdout (w_stdout w ++ [ jsonrpc_response (VDict props) default_id ]) w).
Proof.
  intros Hm Hp Ho. unfold handle_request, bindM, lift. rewrite Hm.
  cbn -[get_properties]. unfold current_properties, write.
  rewrite Hp. cbn [bind]. rewrite Ho. reflexivity.
Qed.

(** C2, where the code departs from it: a GetProperties request with id 7
    is answered with id 1. *)
Lemma get_properties_reply_ignores_request_id :
  map id_of
    (w_stdout (snd (handle_line sample_perform
                      (Decoded (get_properties_request (Some (VInt 7))))
                      (sample_world PLAYING))))
    = [ Some (VInt 1) ].
Proof. vm_compute. reflexivity. Qed.

(** A Control request echoes its id; without an id the action is invoked
    and then the look-up of the id raises, so no reply is written. *)
Example control_reply_ids :
  map id_of
    (w_stdout (snd (handle_line sample_perform
                      (Decoded (control_request (Some (VInt 7)) "pause"))
                      (sample_world PLAYING))))
    = [ Some (VInt 7) ]
  /\ exists w' : world,
       handle_line sample_perform (Decoded (control_request None "pause"))
           (sample_world PLAYING)
         = (Raise (KeyError "id"), w')
       /\ w_invoked w' = [ async_pause ]
       /\ w_stdout w' = [].
Proof.
  split; [vm_compute; reflexivity |].
  eexists. split; [vm_compute; reflexivity |]. split; reflexivity.
Qed.

(** ** Notification debouncer *)

Lemma notify_outcome (w : world) :
  (exists props,
      get_properties (w_device w) = Ok props
      /\ w_stdout_open w = true
      /\ snd (_notify w)
         = set_task None
             (set_stdout
                (w_stdout w
                 ++ [ jsonrpc_command _SNAPCAST_PLAYER_PROPERTIES (VDict props) ]) w))
  \/ ((w_stdout_open w = false \/ exists e, get_properties (w_device w) = Raise e)
      /\ snd (_notify w) = w).
Proof.
  unfold _notify, bindM, current_properties, write.
  destruct (get_properties (w_device w)) as [props | e] eqn:Hp; cbn [bind].
  - destruct (w_stdout_open w) eqn:Ho.
    + left. exists props. repeat split.
    + right. split; [left |]; reflexivity.
  - right. split; [right; exists e |]; reflexivity.
Qed.

Lemma notify_frame (w : world) :
  w_pending (snd (_notify w)) = w_pending w
  /\ w_created (snd (_notify w)) = w_created w
  /\ (w_task (snd (_notify w)) = None \/ snd (_notify w) = w).
Proof.
  destruct (notify_outcome w) as [[props [_ [_ H]]] | [_ H]]; rewrite H.
  - repeat split. left. reflexivity.
  - repeat split. right. reflexivity.
Qed.

Lemma step_coalesced (ev : event) (w : world) :
  coalesced w -> coalesced (step ev w).
Proof.
  unfold coalesced. intros H. destruct ev as [vars | t | d | open]; cbn [step].
  - destruct vars as [| v vars]; cbn [callback]; [exact H |].
    destruct (w_task w) as [t |] eqn:Ht.
    + rewrite Ht. exact H.
    + unfold create_task. cbn. rewrite H. left. reflexivity.
  - unfold run_task.
    destruct (existsb (Nat.eqb t) (w_pending w)) eqn:Hin; [| exact H].
    destruct (w_task w) as [t0 |] eqn:Ht.
    + destruct H as [H | H]; rewrite H in Hin; cbn in Hin; [| discriminate].
      rewrite Bool.orb_false_r in Hin.
      set (w' := set_pending _ w).
      assert (Hp : w_pending w' = []).
      { subst w'. cbn. rewrite H. cbn. rewrite Hin. reflexivity. }
      destruct (notify_frame w') as [Hpend [_ [Hnone | Hsame]]].
      * rewrite Hnone. rewrite Hpend. exact Hp.
      * rewrite Hsame. subst w'. cbn. rewrite Ht. right.
        rewrite H. cbn. rewrite Hin. reflexivity.
    + rewrite H in Hin. discriminate.
  - exact H.
  - exact H.
Qed.

Lemma run_events_coalesced (evs : list event) (w : world) :
  coalesced w -> coalesced (run_events evs w).
Proof.
  unfold run_events. revert w.
  induction evs as [| ev evs IH]; intros w H; cbn [fold_left].
  - exact H.
  - apply IH. apply step_coalesced. exact H.
Qed.

(** C8. At every moment of a run of the debouncer at most one notify
    task is waiting; a renderer event that arrives while one is waiting
    creates no task and restarts nothing (the process is unchanged), and
    an event without state variables never creates a task. *)
Theorem debouncer_keeps_one_task (d : DmrDevice) (evs : list event) :
  (length (w_pending (run_events evs (initial_world d))) <= 1)%nat
  /\ (forall state_variables : list string,
        w_pending (run_events evs (initial_world d)) <> [] ->
        callback state_variables (run_events evs (initial_world d))
          = run_events evs (initial_world d))
  /\ (forall w : world, callback [] w = w).
Proof.
  assert (H : coalesced (run_events evs (initial_world d))).
  { apply run_events_coalesced. reflexivity. }
  set (w := run_events evs (initial_world d)) in *.
  unfold coalesced in H. repeat split.
  - destruct (w_task w); [destruct H as [H | H] |]; rewrite H; cbn; lia.
  - intros vars Hne. destruct vars as [| v vars]; cbn [callback]; [reflexivity |].
    destruct (w_task w); [reflexivity | contradiction].
Qed.

Lemma debouncer_keeps_one_task_witness :
  callback [ "Volume"; "Mute" ]
      (run_events [ renderer_event [ "TransportState" ] ]
         (initial_world (sample_device (Some PLAYING) None)))
    = run_events [ renderer_event [ "TransportState" ] ]
        (initial_world (sample_device (Some PLAYING) None)).
Proof.
  apply (proj1 (proj2 (debouncer_keeps_one_task
                         (sample_device (Some PLAYING) None)
                         [ renderer_event [ "TransportState" ] ]))).
  vm_compute. discriminate.
Defined.

(** A burst of three events gives one notification, with the renderer
    as it is when the sleep ends. *)
Example burst_is_one_notification :
  run_events
      [ renderer_event [ "TransportState" ]; renderer_event [ "Volume" ];
        renderer_changed (sample_device (Some PAUSED_PLAYBACK) None);
        renderer_event [ "Mute" ]; sleep_over 0%nat ]
      (sample_world PLAYING)
    = run_events
        [ renderer_changed (sample_device (Some PAUSED_PLAYBACK) None);
          renderer_event [ "TransportState" ]; sleep_over 0%nat ]
        (sample_world PLAYING).
Proof. vm_compute. reflexivity. Qed.

Ltac unchanged := repeat split; try assumption; try reflexivity.

(** Once the marker is set and no task is left to clear it, nothing the
    event loop does creates a task or writes a line. *)
Lemma step_stuck (ev : event) (w : world) :
  w_task w <> None -> w_pending w = [] ->
  w_task (step ev w) = w_task w
  /\ w_pending (step ev w) = []
  /\ w_created (step ev w) = w_created w
  /\ w_stdout (step ev w) = w_stdout w.
Proof.
  intros Ht Hp. destruct ev as [vars | t | d | open]; cbn [step].
  - destruct vars as [| v vars]; cbn [callback]; [unchanged |].
    destruct (w_task w) eqn:E; [cbn; unchanged | contradiction].
  - unfold run_task. rewrite Hp. cbn. unchanged.
  - cbn. unchanged.
  - cbn. unchanged.
Qed.

Lemma run_events_stuck (evs : list event) (w : world) :
  w_task w <> None -> w_pending w = [] ->
  w_task (run_events evs w) = w_task w
  /\ w_pending (run_events evs w) = []
  /\ w_created (run_events evs w) = w_created w
  /\ w_stdout (run_events evs w) = w_stdout w.
Proof.
  unfold run_events. revert w.
  induction evs as [| ev evs IH]; intros w Ht Hp; cbn [fold_left].
  - unchanged.
  - destruct (step_stuck ev w Ht Hp) as [H1 [H2 [H3 H4]]].
    destruct (IH (step ev w)) as [G1 [G2 [G3 G4]]].
    + rewrite H1. exact Ht.
    + exact H2.
    + rewrite G1, G2, G3, G4, H1, H3, H4. unchanged.
Qed.

(** C4, as the code has it. The notify task clears the marker after the
    write has returned: then the next renderer event creates a new task.
    When the write raises, the marker stays set, and whatever happens
    later (the output stream may work again) no task is created and
    nothing is written any more. *)
Theorem notify_clears_marker_after_write (t : nat) (w : world) :
  w_task w = Some t ->
  w_pending w = [ t ] ->
  (forall props : list (string * value),
      get_properties (w_device w) = Ok props ->
      w_stdout_open w = true ->
      w_task (run_task t w) = None
      /\ forall (v : string) (vs : list string),
           w_pending (callback (v :: vs) (run_task t w)) = [ w_created w ])
  /\ (w_stdout_open w = false ->
      w_task (run_task t w) = Some t
      /\ forall evs : list event,
           w_task (run_events evs (run_task t w)) = Some t
           /\ w_pending (run_events evs (run_task t w)) = []
           /\ w_created (run_events evs (run_task t w)) = w_created w
           /\ w_stdout (run_events evs (run_task t w)) = w_stdout w).
Proof.
  intros Ht Hp.
  assert (Hrun : run_task t w = snd (_notify (set_pending [] w))).
  { unfold run_task. rewrite Hp. cbn. rewrite Nat.eqb_refl. reflexivity. }
  split.
  - intros props Hprops Hopen. rewrite Hrun.
    destruct (notify_outcome (set_pending [] w))
      as [[props' [_ [_ H]]] | [[Hc | [e He]] _]].
    + rewrite H. split; [reflexivity |]. intros v vs. reflexivity.
    + cbn in Hc. congruence.
    + cbn in He. congruence.
  - intros Hclosed. rewrite Hrun.
    destruct (notify_outcome (set_pending [] w))
      as [[props' [_ [Ho _]]] | [_ H]].
    + cbn in Ho. congruence.
    + rewrite H. split; [exact Ht |]. intros evs.
      destruct (run_events_stuck evs (set_pending [] w)) as [G1 [G2 [G3 G4]]].
      * cbn. rewrite Ht. discriminate.
      * reflexivity.
      * rewrite G1, G2, G3, G4. cbn. rewrite Ht. unchanged.
Qed.

Lemma notify_clears_marker_after_write_witness :
  w_task (run_task 0 (callback [ "Volume" ] (sample_world PLAYING))) = None
  /\ forall (v : string) (vs : list string),
       w_pending (callback (v :: vs)
                    (run_task 0 (callback [ "Volume" ] (sample_world PLAYING))))
         = [ w_created (callback [ "Volume" ] (sample_world PLAYING)) ].
Proof.
  refine (proj1 (notify_clears_marker_after_write 0
                   (callback [ "Volume" ] (sample_world PLAYING)) _ _) _ _ _).
  - reflexivity.
  - reflexivity.
  - vm_compute. reflexivity.
  - reflexivity.
Defined.

(** C4, as stated, fails: after a notification that could not be
    written the marker is still set, and the next renderer event, with
    the output stream working again, creates no task. *)
Lemma failed_write_keeps_marker :
  w_task world_after_failed_write = Some 0%nat
  /\ w_pending world_after_failed_write = []
  /\ w_pending
       (run_events [ stdout_status true; renderer_event [ "TransportState" ] ]
          world_after_failed_write) = []
  /\ w_created
       (run_events [ stdout_status true; renderer_event [ "TransportState" ] ]
          world_after_failed_write) = 1%nat.
Proof. vm_compute. repeat split. Qed.

(** ** Volume: binary64 arithmetic *)

Lemma shr_1_halves (r : shr_record) :
  0 <= shr_m r -> shr_m (shr_1 r) = shr_m r / 2.
Proof.
  destruct r as [m rb sb]. cbn [shr_m]. intros Hm.
  destruct m as [| p | p]; [reflexivity | | lia].
  destruct p as [p | p |]; cbn [shr_1 shr_m].
  - rewrite Pos2Z.inj_xI. apply Z.div_unique with (r := 1); lia.
  - rewrite Pos2Z.inj_xO. apply Z.div_unique with (r := 0); lia.
  - reflexivity.
Qed.

Lemma iter_shr_1_divides (n : positive) (r : shr_record) :
  0 <= shr_m r -> shr_m (iter_pos shr_1 n r) = shr_m r / 2 ^ Z.pos n.
Proof.
  revert r. induction n as [n IH | n IH |]; intros r Hr; cbn [iter_pos].
  - assert (H1 : 0 <= shr_m (shr_1 r)).
    { rewrite shr_1_halves by exact Hr. apply Z.div_pos; lia. }
    assert (H2 : 0 <= shr_m (iter_pos shr_1 n (shr_1 r))).
    { rewrite IH by exact H1. apply Z.div_pos; [exact H1 | lia]. }
    rewrite IH by exact H2. rewrite IH by exact H1. rewrite shr_1_halves by exact Hr.
    rewrite !Z.div_div by lia.
    f_equal. change 2 with (2 ^ 1) at 1. rewrite <- !Z.pow_add_r by lia.
    replace (Z.pos n~1) with (1 + (Z.pos n + Z.pos n)) by lia. reflexivity.
  - assert (H2 : 0 <= shr_m (iter_pos shr_1 n r)).
    { rewrite IH by exact Hr. apply Z.div_pos; [exact Hr | lia]. }
    rewrite IH by exact H2. rewrite IH by exact Hr.
    rewrite Z.div_div by lia.
    f_equal. rewrite <- Z.pow_add_r by lia.
    replace (Z.pos n~0) with (Z.pos n + Z.pos n) by lia. reflexivity.
  - rewrite shr_1_halves by exact Hr. reflexivity.
Qed.

Lemma shr_divides (r : shr_record) (e n : Z) :
  0 <= shr_m r ->
  shr_m (fst (shr r e n)) = shr_m r / 2 ^ Z.max n 0
  /\ snd (shr r e n) = e + Z.max n 0.
Proof.
  intros Hr. destruct n as [| p | p]; cbn [shr fst snd].
  - rewrite Z.max_id. cbn. rewrite Z.div_1_r. lia.
  - rewrite Z.max_l by lia. split; [apply iter_shr_1_divides; exact Hr | reflexivity].
  - rewrite Z.max_r by lia. cbn. rewrite Z.div_1_r. lia.
Qed.

Lemma digits2_pos_low (p : positive) :
  2 ^ (Z.pos (digits2_pos p) - 1) <= Z.pos p.
Proof.
  induction p as [p IH | p IH |]; cbn [digits2_pos].
  - rewrite Pos2Z.inj_succ. replace (Z.succ (Z.pos (digits2_pos p)) - 1)
      with (1 + (Z.pos (digits2_pos p) - 1)) by lia.
    rewrite Z.pow_add_r by lia. lia.
  - rewrite Pos2Z.inj_succ. replace (Z.succ (Z.pos (digits2_pos p)) - 1)
      with (1 + (Z.pos (digits2_pos p) - 1)) by lia.
    rewrite Z.pow_add_r by lia. lia.
  - cbn. lia.
Qed.

Lemma Zdigits2_below (m k : Z) :
  0 <= k -> 0 <= m < 2 ^ k -> Zdigits2 m <= k.
Proof.
  intros Hk [H0 Hm]. destruct m as [| p | p]; cbn [Zdigits2]; [exact Hk | | lia].
  pose proof (digits2_pos_low p) as Hlow.
  assert (Hlt : 2 ^ (Z.pos (digits2_pos p) - 1) < 2 ^ k) by lia.
  apply Z.pow_lt_mono_r_iff in Hlt; lia.
Qed.

Lemma round_nearest_even_near (m : Z) (l : location) :
  m <= round_nearest_even m l <= m + 1.
Proof.
  destruct l as [| []]; cbn [round_nearest_even]; try lia.
  destruct (Z.even m); lia.
Qed.

(** Shifting right keeps a bound [m < c * 2 ^ (- e)] on the value. *)
Lemma shifted_below (c m e k : Z) :
  0 <= k -> e + k <= 0 -> 0 <= m < c * 2 ^ (- e) ->
  0 <= m / 2 ^ k < c * 2 ^ (- (e + k)).
Proof.
  intros Hk He [H0 Hm].
  assert (Hp : 0 < 2 ^ k) by (apply Z.pow_pos_nonneg; lia).
  split; [apply Z.div_pos; lia |].
  apply Z.div_lt_upper_bound; [exact Hp |].
  replace (- e) with (k + - (e + k)) in Hm by lia.
  rewrite Z.pow_add_r in Hm by lia. lia.
Qed.

Lemma digits2_pos_high (p : positive) :
  Z.pos p < 2 ^ Z.pos (digits2_pos p).
Proof.
  induction p as [p IH | p IH |]; cbn [digits2_pos].
  - rewrite Pos2Z.inj_succ, Z.pow_succ_r by lia. lia.
  - rewrite Pos2Z.inj_succ, Z.pow_succ_r by lia. lia.
  - cbn. lia.
Qed.

(** The exact product of a float below one with 100, rounded to binary64,
    is zero or a positive float whose integer part is at most 100. *)
Lemma product_rounds_below (M E : Z) :
  0 < M -> M < 100 * 2 ^ 99 -> E <= -99 ->
  match binary_round_aux prec emax false M E loc_Exact with
  | S754_zero _ => True
  | S754_finite s m e => s = false /\ 0 <= Z.shiftl (Z.pos m) e <= 100
  | _ => False
  end.
Proof.
  intros HM0 HM HE.
  unfold binary_round_aux, shr_fexp.
  assert (Hd1 : Zdigits2 M <= 106).
  { apply Zdigits2_below; [lia |].
    change (2 ^ 106) with (128 * 2 ^ 99). lia. }
  assert (HB0 : 0 <= M < 100 * 2 ^ (- E)).
  { assert (2 ^ 99 <= 2 ^ (- E)) by (apply Z.pow_le_mono_r; lia). lia. }
  set (n1 := fexp prec emax (Zdigits2 M + E) - E).
  destruct (shr_divides (shr_record_of_loc M loc_Exact) E n1) as [Hm1 He1];
    [cbn; lia |].
  destruct (shr (shr_record_of_loc M loc_Exact) E n1) as [mrs1 e1].
  cbn [fst snd shr_record_of_loc shr_m] in Hm1, He1.
  assert (Hk1 : e1 <= -46).
  { subst e1 n1. unfold fexp, SpecFloat.emin. cbv [prec emax]. lia. }
  assert (HB1 : 0 <= shr_m mrs1 < 100 * 2 ^ (- e1)).
  { rewrite Hm1, He1. apply shifted_below; lia. }
  pose proof (round_nearest_even_near (shr_m mrs1) (loc_of_shr_record mrs1)) as Hr.
  set (mr := round_nearest_even (shr_m mrs1) (loc_of_shr_record mrs1)) in *.
  assert (HP1 : 0 < 2 ^ (- e1)) by (apply Z.pow_pos_nonneg; lia).
  assert (HBr : 0 <= mr < 101 * 2 ^ (- e1)) by lia.
  assert (Hd2 : Zdigits2 mr <= 7 - e1).
  { apply Zdigits2_below; [lia |].
    replace (7 - e1) with (7 + - e1) by lia.
    rewrite Z.pow_add_r by lia. change (2 ^ 7) with 128. lia. }
  set (n2 := fexp prec emax (Zdigits2 mr + e1) - e1).
  destruct (shr_divides (shr_record_of_loc mr loc_Exact) e1 n2) as [Hm2 He2];
    [cbn; lia |].
  destruct (shr (shr_record_of_loc mr loc_Exact) e1 n2) as [mrs2 e2].
  cbn [fst snd shr_record_of_loc shr_m] in Hm2, He2.
  assert (Hk2 : e2 <= -46).
  { subst e2 n2. unfold fexp, SpecFloat.emin. cbv [prec emax]. lia. }
  assert (HB2 : 0 <= shr_m mrs2 < 101 * 2 ^ (- e2)).
  { rewrite Hm2, He2. apply shifted_below; lia. }
  destruct (shr_m mrs2) as [| p | p]; [exact I | | lia].
  replace (e2 <=? emax - prec) with true
    by (symmetry; apply Z.leb_le; cbv [prec emax]; lia).
  split; [reflexivity |].
  rewrite Z.shiftl_div_pow2 by lia.
  assert (HP2 : 0 < 2 ^ (- e2)) by (apply Z.pow_pos_nonneg; lia).
  split; [apply Z.div_pos; lia |].
  assert (Z.pos p / 2 ^ (- e2) < 101); [| lia].
  apply Z.div_lt_upper_bound; lia.
Qed.

(** Rounding to the nearest integer gives the integer part or the
    integer above it. *)
Lemma round_near_integer_part (m : positive) (e : Z) :
  Z.shiftl (Z.pos m) e
    <= (if 0 <=? e then Z.shiftl (Z.pos m) e
        else
          let d := 2 ^ (- e) in
          let q := Z.pos m / d in
          match 2 * (Z.pos m mod d) ?= d with
          | Lt => q
          | Gt => q + 1
          | Eq => if Z.even q then q else q + 1
          end)
    <= Z.shiftl (Z.pos m) e + 1.
Proof.
  destruct (0 <=? e) eqn:He; [lia |].
  apply Z.leb_gt in He. rewrite Z.shiftl_div_pow2 by lia. cbv zeta.
  destruct (2 * (Z.pos m mod 2 ^ (- e)) ?= 2 ^ (- e)); try lia.
  destruct (Z.even (Z.pos m / 2 ^ (- e))); lia.
Qed.

(** A level between 0 and 1, times 100 in binary64, has an integer
    part between 0 and 100, which is the rounded value or one below it. *)
Lemma int_of_unit_level (l : float) :
  (0 <=? l)%float = true -> (l <=? 1)%float = true ->
  exists v r : Z,
    float_int (100 * l)%float = Ok v
    /\ float_round (100 * l)%float = Ok r
    /\ 0 <= v <= 100
    /\ v <= r <= v + 1.
Proof.
  intros H0 H1. rewrite leb_spec in H0, H1.
  pose proof (Prim2SF_valid l) as Hvalid.
  unfold float_int, float_round. rewrite mul_spec.
  change (Prim2SF 100) with (S754_finite false 7036874417766400 (-46)).
  change (Prim2SF 0) with (S754_zero false) in H0.
  change (Prim2SF 1) with (S754_finite false 4503599627370496 (-52)) in H1.
  destruct (Prim2SF l) as [s | s | | s m e].
  - exists 0, 0. cbn. repeat split; lia.
  - destruct s; cbn in H0, H1; discriminate.
  - cbn in H0. discriminate.
  - destruct s; [cbn in H0; discriminate |].
    cbn [SpecFloat.valid_binary] in Hvalid.
    unfold bounded, canonical_mantissa in Hvalid.
    apply andb_prop in Hvalid. destruct Hvalid as [Hcanon _].
    apply Z.eqb_eq in Hcanon. unfold fexp, SpecFloat.emin in Hcanon.
    cbv [prec emax] in Hcanon.
    pose proof (digits2_pos_low m) as Hlow.
    pose proof (digits2_pos_high m) as Hhigh.
    unfold SFleb, SFcompare in H1.
    destruct (Z.compare_spec e (-52)) as [He | He | He]; [| | discriminate].
    + (* the level is one *)
      assert (Hd : Z.pos (digits2_pos m) = 53) by lia.
      rewrite Hd in Hlow. change (2 ^ (53 - 1)) with 4503599627370496 in Hlow.
      assert (Hm : m = 4503599627370496%positive).
      { destruct (Pos.compare_cont Eq m 4503599627370496) eqn:Hcmp.
        - exact (proj1 (Pos.compare_eq_iff _ _) Hcmp).
        - exfalso. pose proof (Pos2Z.pos_lt_pos _ _ Hcmp) as Hlt.
          clear - Hlow Hlt. lia.
        - cbn in H1. discriminate H1. }
      subst m e. exists 100, 100.
      split; [vm_compute; reflexivity |].
      split; [vm_compute; reflexivity | lia].
    + (* the level is below one *)
      assert (Hm : Z.pos m < 2 ^ 53).
      { assert (2 ^ Z.pos (digits2_pos m) <= 2 ^ 53)
          by (apply Z.pow_le_mono_r; clear - Hcanon; lia).
        clear - H Hhigh. lia. }
      cbn [SF64mul SFmul xorb].
      assert (HM : Z.pos (7036874417766400 * m) < 100 * 2 ^ 99).
      { rewrite Pos2Z.inj_mul. change (2 ^ 53) with 9007199254740992 in Hm.
        change (100 * 2 ^ 99) with (7036874417766400 * 9007199254740992).
        clear - Hm. lia. }
      assert (HE : -46 + e <= -99) by (clear - He; lia).
      pose proof (product_rounds_below (Z.pos (7036874417766400 * m)) (-46 + e)
                    (Pos2Z.pos_is_pos _) HM HE) as Hp.
      destruct (binary_round_aux prec emax false (Z.pos (7036874417766400 * m))
                  (-46 + e) loc_Exact) as [s' | s' | | s' m' e'].
      * exists 0, 0. repeat split; lia.
      * contradiction.
      * contradiction.
      * destruct Hp as [Hs Hv]. subst s'.
        pose proof (round_near_integer_part m' e') as Hr.
        eexists. eexists.
        split; [reflexivity |]. split; [reflexivity |].
        split; [exact Hv | exact Hr].
Qed.

Lemma float_or_zero_in_unit_range (device : DmrDevice) :
  level_in_unit_range device ->
  (0 <=? float_or_zero (volume_level device))%float = true
  /\ (float_or_zero (volume_level device) <=? 1)%float = true.
Proof.
  unfold level_in_unit_range, float_or_zero.
  destruct (volume_level device) as [l |]; [| intros _; split; reflexivity].
  intros [H0 H1]. destruct (PrimFloat.eqb l 0); [split; reflexivity | tauto].
Qed.

(** C5, as the code has it. Without volume support the volume is 100,
    whatever the level. With volume support and a level between 0 and 1
    (or none, which counts as 0), the volume is the integer part of
    100 x level: an integer between 0 and 100 that equals the rounded
    value or is one below it. *)
Theorem volume_is_integer_part (device : DmrDevice) :
  (has_volume_level device = false -> volume_of device = Ok 100)
  /\ (has_volume_level device = true ->
      level_in_unit_range device ->
      exists v r : Z,
        volume_of device = Ok v
        /\ float_round (100 * float_or_zero (volume_level device))%float = Ok r
        /\ 0 <= v <= 100
        /\ v <= r <= v + 1).
Proof.
  unfold volume_of. split; intros Hhas; rewrite Hhas; [reflexivity |].
  intros Hrange. apply float_or_zero_in_unit_range in Hrange.
  apply int_of_unit_level; tauto.
Qed.

Lemma volume_is_integer_part_witness :
  (volume_of (sample_device_no_volume (Some 0.25%float)) = Ok 100)
  /\ exists v r : Z,
       volume_of (sample_device (Some PLAYING) (Some 0.96875%float)) = Ok v
       /\ float_round
            (100 * float_or_zero
                     (volume_level (sample_device (Some PLAYING) (Some 0.96875%float))))%float
          = Ok r
       /\ 0 <= v <= 100
       /\ v <= r <= v + 1.
Proof.
  split.
  - apply (proj1 (volume_is_integer_part (sample_device_no_volume (Some 0.25%float)))).
    reflexivity.
  - apply (proj2 (volume_is_integer_part
                    (sample_device (Some PLAYING) (Some 0.96875%float)))).
    + reflexivity.
    + split; vm_compute; reflexivity.
Defined.

(** C5, as stated, fails: at level 31/32 the product 96.875 is exact,
    the mapper reports 96, and rounding gives 97. *)
Lemma volume_is_not_rounded :
  volume_of (sample_device (Some PLAYING) (Some 0.96875%float)) = Ok 96
  /\ float_round (100 * 0.96875)%float = Ok 97.
Proof. split; vm_compute; reflexivity. Qed.

(* ================================================================= *)
(** * Further properties of the plugin *)

(** ** Property mapper *)

(** X1. The mapper fails only through its volume entry, and then with the
    same exception; it returns, with its fourteen keys in their order,
    for every renderer without volume support and for every renderer
    whose level is between 0 and 1 or missing. *)
Theorem get_properties_fails_only_through_volume (device : DmrDevice) :
  (forall e : exn, get_properties device = Raise e <-> volume_of device = Raise e)
  /\ (has_volume_level device = false \/ level_in_unit_range device ->
      exists props : list (string * value),
        get_properties device = Ok props /\ map fst props = property_keys).
Proof.
  split.
  - intros e. unfold get_properties.
    destruct (volume_of device) as [v | e']; cbn [bind]; split; intros H;
      first [discriminate H | injection H as ->; reflexivity].
  - intros Hcond.
    assert (Hv : exists v : Z, volume_of device = Ok v).
    { unfold volume_of. destruct (has_volume_level device) eqn:Hhas.
      - destruct Hcond as [Hc | Hc]; [discriminate Hc |].
        apply float_or_zero_in_unit_range in Hc. destruct Hc as [H0 H1].
        destruct (int_of_unit_level _ H0 H1) as [v [r [Hi _]]].
        exists v. exact Hi.
      - exists 100. reflexivity. }
    destruct Hv as [v Hv]. unfold get_properties. rewrite Hv. cbn [bind].
    eexists. split; reflexivity.
Qed.

Lemma get_properties_fails_only_through_volume_witness :
  exists props : list (string * value),
    get_properties (sample_device_no_volume None) = Ok props
    /\ map fst props = property_keys.
Proof.
  apply (proj2 (get_properties_fails_only_through_volume
                  (sample_device_no_volume None))).
  left. reflexivity.
Defined.

(** ** Command dispatcher *)

Lemma control_methods_unknown (name : string) (device : DmrDevice) :
  ~ In name control_names -> lookup name (control_methods device) = None.
Proof.
  intros H. unfold control_methods. cbn [lookup].
  repeat match goal with
         | |- context [String.eqb ?k name] =>
             let E := fresh "E" in
             destruct (String.eqb_spec k name) as [E | E];
             [exfalso; apply H; rewrite <- E; cbn; tauto |]
         end.
  reflexivity.
Qed.

Lemma control_methods_known (name : string) (device : DmrDevice) :
  In name control_names ->
  exists a : action, lookup name (control_methods device) = Some a.
Proof.
  intros H. cbn in H.
  destruct H as [H | [H | [H | [H | [H | [H | []]]]]]]; subst name;
    eexists; reflexivity.
Qed.

(** X2. The dispatcher acts on the six command names and on nothing else: a
    command that cannot be hashed (a JSON array or object) raises
    [TypeError]; any other value that is not one of the six names is
    ignored without an error and leaves the process as it was; each of the
    six names invokes one renderer action. *)
Theorem send_control_acts_on_known_names
    (perform : action -> DmrDevice -> result DmrDevice)
    (command : value) (w : world) :
  (hashable command = false ->
   send_control perform command w = (Raise TypeError, w))
  /\ (hashable command = true ->
      (forall name : string, command = VStr name -> ~ In name control_names) ->
      send_control perform command w = (Ok tt, w))
  /\ (forall name : string,
        command = VStr name -> In name control_names ->
        exists a : action, send_control perform command w = invoke perform a w).
Proof.
  unfold send_control, bindM, lift. repeat split.
  - intros Hh. destruct command; try discriminate Hh; reflexivity.
  - intros Hh Hname. destruct command; try discriminate Hh; try reflexivity.
    cbn [control_method]. rewrite control_methods_unknown; [reflexivity |].
    apply Hname. reflexivity.
  - intros name Hc Hin. subst command. cbn [control_method].
    destruct (control_methods_known name (w_device w) Hin) as [a Ha].
    exists a. rewrite Ha. reflexivity.
Qed.

Lemma send_control_acts_on_known_names_witness :
  send_control sample_perform (VStr "rewind") (sample_world PLAYING)
    = (Ok tt, sample_world PLAYING).
Proof.
  apply (proj1 (proj2 (send_control_acts_on_known_names sample_perform
                         (VStr "rewind") (sample_world PLAYING)))).
  - reflexivity.
  - intros name H. injection H as <-. cbn.
    intros [H | [H | [H | [H | [H | [H | []]]]]]]; discriminate H.
Defined.

(** The five direct commands do not look at the renderer's state. *)
Example direct_commands :
  forall (perform : action -> DmrDevice -> result DmrDevice) (w : world),
    send_control perform (VStr "stop") w = invoke perform async_stop w
    /\ send_control perform (VStr "play") w = invoke perform async_play w
    /\ send_control perform (VStr "pause") w = invoke perform async_pause w
    /\ send_control perform (VStr "previous") w = invoke perform async_previous w
    /\ send_control perform (VStr "next") w = invoke perform async_next w.
Proof. intros perform w. repeat split. Qed.

(** ** Request router *)

Lemma handle_control
    (perform : action -> DmrDevice -> result DmrDevice)
    (request : value) (w : world) :
  getitem request "method" = Ok (VStr "Plugin.Stream.Player.Control") ->
  handle_request perform request w
    = (params <- lift (getitem request "params") ;;
       command <- lift (getitem params "command") ;;
       send_control perform command ;;
       id <- lift (getitem request "id") ;;
       write (jsonrpc_response (VStr "ok") id)) w.
Proof.
  intros Hm. unfold handle_request. unfold bindM at 1 2. unfold lift at 1 2.
  rewrite Hm. reflexivity.
Qed.

Lemma send_control_known
    (perform : action -> DmrDevice -> result DmrDevice)
    (name : string) (a : action) (w : world) :
  lookup name (control_methods (w_device w)) = Some a ->
  send_control perform (VStr name) w = invoke perform a w.
Proof.
  intros Ha. unfold send_control, bindM, lift. cbn [control_method].
  rewrite Ha. reflexivity.
Qed.

(** X3. A Control request with a known command, on a renderer that carries
    the action out, invokes that one action and then writes one reply:
    result "ok" under the request's own id, whatever JSON value the id
    is. *)
Theorem control_request_is_performed_then_acknowledged
    (perform : action -> DmrDevice -> result DmrDevice)
    (request params id : value) (name : string) (a : action)
    (d : DmrDevice) (w : world) :
  getitem request "method" = Ok (VStr "Plugin.Stream.Player.Control") ->
  getitem request "params" = Ok params ->
  getitem params "command" = Ok (VStr name) ->
  lookup name (control_methods (w_device w)) = Some a ->
  perform a (w_device w) = Ok d ->
  getitem request "id" = Ok id ->
  w_stdout_open w = true ->
  handle_request perform request w
    = (Ok tt,
       set_stdout
         (w_stdout w
          ++ [ dumps_line [ ("id", id); ("jsonrpc", VStr "2.0");
                            ("result", VStr "ok") ] ])%list
         (set_device d (set_invoked (w_invoked w ++ [ a ])%list w))).
Proof.
  intros Hm Hp Hc Ha Hd Hi Ho. rewrite (handle_control _ _ _ Hm).
  unfold bindM at 1. unfold lift at 1. rewrite Hp.
  unfold bindM at 1. unfold lift at 1. rewrite Hc.
  unfold bindM at 1. rewrite (send_control_known _ _ _ _ Ha).
  unfold invoke. rewrite Hd.
  unfold bindM, lift. rewrite Hi. unfold write. cbn. rewrite Ho. reflexivity.
Qed.

Lemma control_request_is_performed_then_acknowledged_witness :
  handle_request sample_perform (control_request (Some (VStr "req-9")) "stop")
      (sample_world PLAYING)
    = (Ok tt,
       set_stdout
         (w_stdout (sample_world PLAYING)
          ++ [ dumps_line [ ("id", VStr "req-9"); ("jsonrpc", VStr "2.0");
                            ("result", VStr "ok") ] ])%list
         (set_device (sample_device (Some STOPPED) (Some 0.5%float))
            (set_invoked (w_invoked (sample_world PLAYING) ++ [ async_stop ])%list
               (sample_world PLAYING)))).
Proof.
  apply (control_request_is_performed_then_acknowledged sample_perform
           (control_request (Some (VStr "req-9")) "stop")
           (VDict [ ("command", VStr "stop") ]) (VStr "req-9") "stop" async_stop
           (sample_device (Some STOPPED) (Some 0.5%float)) (sample_world PLAYING));
    reflexivity.
Defined.

(** X4. A Control request whose command is none of the six names (and can
    be hashed) is acknowledged all the same: no action is invoked, the
    renderer is untouched, and the reply says "ok". *)
Theorem unknown_control_command_is_acknowledged
    (perform : action -> DmrDevice -> result DmrDevice)
    (request params command id : value) (w : world) :
  getitem request "method" = Ok (VStr "Plugin.Stream.Player.Control") ->
  getitem request "params" = Ok params ->
  getitem params "command" = Ok command ->
  hashable command = true ->
  (forall name : string, command = VStr name -> ~ In name control_names) ->
  getitem request "id" = Ok id ->
  w_stdout_open w = true ->
  handle_request perform request w
    = (Ok tt,
       set_stdout
         (w_stdout w
          ++ [ dumps_line [ ("id", id); ("jsonrpc", VStr "2.0");
                            ("result", VStr "ok") ] ])%list w).
Proof.
  intros Hm Hp Hc Hh Hn Hi Ho. rewrite (handle_control _ _ _ Hm).
  unfold bindM at 1. unfold lift at 1. rewrite Hp.
  unfold bindM at 1. unfold lift at 1. rewrite Hc.
  unfold bindM at 1.
  assert (Hs : send_control perform command w = (Ok tt, w)).
  { unfold send_control, bindM, lift.
    destruct command; try discriminate Hh; try reflexivity.
    cbn [control_method]. rewrite control_methods_unknown; [reflexivity |].
    apply Hn. reflexivity. }
  rewrite Hs. unfold bindM, lift. rewrite Hi. unfold write. rewrite Ho.
  reflexivity.
Qed.

Lemma unknown_control_command_is_acknowledged_witness :
  handle_request sample_perform (control_request (Some (VInt 8)) "rewind")
      (sample_world PLAYING)
    = (Ok tt,
       set_stdout
         (w_stdout (sample_world PLAYING)
          ++ [ dumps_line [ ("id", VInt 8); ("jsonrpc", VStr "2.0");
                            ("result", VStr "ok") ] ])%list
         (sample_world PLAYING)).
Proof.
  apply (unknown_control_command_is_acknowledged sample_perform
           (control_request (Some (VInt 8)) "rewind")
           (VDict [ ("command", VStr "rewind") ]) (VStr "rewind") (VInt 8)
           (sample_world PLAYING)); try reflexivity.
  intros name H. injection H as <-. cbn.
  intros [H | [H | [H | [H | [H | [H | []]]]]]]; discriminate H.
Defined.

(** X5. The id is read after the action: a Control request without an id
    has its action carried out, and only then the missing key raises;
    no reply is written and the loop ends there. *)
Theorem control_without_id_acts_then_raises
    (perform : action -> DmrDevice -> result DmrDevice)
    (request params : value) (name : string) (a : action)
    (d : DmrDevice) (w : world) (rest : list decoded) :
  getitem request "method" = Ok (VStr "Plugin.Stream.Player.Control") ->
  getitem request "params" = Ok params ->
  getitem params "command" = Ok (VStr name) ->
  lookup name (control_methods (w_device w)) = Some a ->
  perform a (w_device w) = Ok d ->
  getitem request "id" = Raise (KeyError "id") ->
  serve perform (Decoded request :: rest) w
    = (Raise (KeyError "id"),
       set_device d (set_invoked (w_invoked w ++ [ a ])%list w)).
Proof.
  intros Hm Hp Hc Ha Hd Hi. apply serve_raise. cbn [handle_line].
  rewrite (handle_control _ _ _ Hm).
  unfold bindM at 1. unfold lift at 1. rewrite Hp.
  unfold bindM at 1. unfold lift at 1. rewrite Hc.
  unfold bindM at 1. rewrite (send_control_known _ _ _ _ Ha).
  unfold invoke. rewrite Hd.
  unfold bindM, lift. rewrite Hi. reflexivity.
Qed.

Lemma control_without_id_acts_then_raises_witness :
  serve sample_perform
      [ Decoded (control_request None "next");
        Decoded (get_properties_request (Some (VInt 2))) ]
      (sample_world PLAYING)
    = (Raise (KeyError "id"),
       set_device (sample_device (Some PLAYING) (Some 0.5%float))
         (set_invoked (w_invoked (sample_world PLAYING) ++ [ async_next ])%list
            (sample_world PLAYING))).
Proof.
  apply (control_without_id_acts_then_raises sample_perform
           (control_request None "next")
           (VDict [ ("command", VStr "next") ]) "next" async_next
           (sample_device (Some PLAYING) (Some 0.5%float)) (sample_world PLAYING));
    reflexivity.
Defined.

(** X6. An action that the renderer refuses is not caught: the exception
    leaves the loop, no reply is written for the request, and the lines
    after it are never read. *)
Theorem failed_action_ends_loop
    (perform : action -> DmrDevice -> result DmrDevice)
    (request params : value) (name : string) (a : action) (e : exn)
    (w : world) (rest : list decoded) :
  getitem request "method" = Ok (VStr "Plugin.Stream.Player.Control") ->
  getitem request "params" = Ok params ->
  getitem params "command" = Ok (VStr name) ->
  lookup name (control_methods (w_device w)) = Some a ->
  perform a (w_device w) = Raise e ->
  serve perform (Decoded request :: rest) w
    = (Raise e, set_invoked (w_invoked w ++ [ a ])%list w).
Proof.
  intros Hm Hp Hc Ha He. apply serve_raise. cbn [handle_line].
  rewrite (handle_control _ _ _ Hm).
  unfold bindM at 1. unfold lift at 1. rewrite Hp.
  unfold bindM at 1. unfold lift at 1. rewrite Hc.
  unfold bindM at 1. rewrite (send_control_known _ _ _ _ Ha).
  unfold invoke. rewrite He. reflexivity.
Qed.

Lemma failed_action_ends_loop_witness :
  serve (fun _ _ => Raise UpnpError)
      [ Decoded (control_request (Some (VInt 1)) "play");
        Decoded (control_request (Some (VInt 2)) "stop") ]
      (sample_world PAUSED_PLAYBACK)
    = (Raise UpnpError,
       set_invoked (w_invoked (sample_world PAUSED_PLAYBACK) ++ [ async_play ])%list
         (sample_world PAUSED_PLAYBACK)).
Proof.
  apply (failed_action_ends_loop (fun _ _ => Raise UpnpError)
           (control_request (Some (VInt 1)) "play")
           (VDict [ ("command", VStr "play") ]) "play" async_play UpnpError
           (sample_world PAUSED_PLAYBACK));
    reflexivity.
Defined.

Lemma rsplit_dot_inv (s a b : string) :
  rsplit_dot s = Some (a, b) -> s = a ++ "." ++ b.
Proof.
  revert a b. induction s as [| c s IH]; intros a b H; cbn in H; [discriminate H |].
  destruct (rsplit_dot s) as [[a' b'] |].
  - injection H as <- <-. cbn. f_equal. apply IH. reflexivity.
  - destruct (Ascii.eqb_spec c "."); [| discriminate H].
    injection H as <- <-. subst c. reflexivity.
Qed.

(** X7. Only two methods ever have an effect. A request whose method is a
    string other than "Plugin.Stream.Player.Control" and
    "Plugin.Stream.Player.GetProperties" writes nothing and invokes
    nothing: it is skipped when the method has a dot, and raises
    [ValueError] (which ends the loop) when it has none. *)
Theorem only_two_methods_act
    (perform : action -> DmrDevice -> result DmrDevice)
    (request : value) (m : string) (w : world) :
  getitem request "method" = Ok (VStr m) ->
  m <> "Plugin.Stream.Player.Control" ->
  m <> "Plugin.Stream.Player.GetProperties" ->
  handle_request perform request w
    = match rsplit_dot m with
      | Some _ => (Ok tt, w)
      | None => (Raise ValueError, w)
      end.
Proof.
  intros Hm Hc Hg. unfold handle_request, bindM, lift. rewrite Hm.
  cbn [rsplit_unpack].
  destruct (rsplit_dot m) as [[i c] |] eqn:Hs; [| reflexivity].
  apply rsplit_dot_inv in Hs.
  destruct (String.eqb_spec i _SNAPCAST_PLAYER_INTERFACE) as [Hi | Hi];
    cbn [negb]; [| reflexivity].
  subst i.
  destruct (String.eqb_spec c "Control") as [E1 | E1];
    [subst c; contradiction |].
  destruct (String.eqb_spec c "GetProperties") as [E2 | E2];
    [subst c; contradiction |].
  cbn [existsb _SNAPCAST_SUPPORTED_COMMANDS map SnapcastCommand_value].
  destruct (String.eqb_spec c "Control"); [contradiction |].
  destruct (String.eqb_spec c "GetProperties"); [contradiction |].
  destruct (String.eqb c "SetProperty"); reflexivity.
Qed.

Lemma only_two_methods_act_witness :
  handle_request sample_perform
      (request_of (Some (VInt 6)) "Plugin.Stream.Player.Control.now" None)
      (sample_world PLAYING)
    = match rsplit_dot "Plugin.Stream.Player.Control.now" with
      | Some _ => (Ok tt, sample_world PLAYING)
      | None => (Raise ValueError, sample_world PLAYING)
      end.
Proof.
  apply (only_two_methods_act sample_perform
           (request_of (Some (VInt 6)) "Plugin.Stream.Player.Control.now" None)
           "Plugin.Stream.Player.Control.now" (sample_world PLAYING)).
  - reflexivity.
  - discriminate.
  - discriminate.
Defined.

(** X8. A GetProperties request reads neither [id] nor [params] and invokes
    nothing: it is answered with the properties of the renderer as it is
    now, under the default id; if the mapper raises, or the output
    stream fails, the exception escapes with the process unchanged. *)
Theorem get_properties_request_is_answered
    (perform : action -> DmrDevice -> result DmrDevice)
    (request : value) (w : world) :
  getitem request "method" = Ok (VStr "Plugin.Stream.Player.GetProperties") ->
  handle_request perform request w
    = match get_properties (w_device w) with
      | Ok props =>
          if w_stdout_open w
          then (Ok tt,
                set_stdout
                  (w_stdout w
                   ++ [ dumps_line [ ("id", VInt 1); ("jsonrpc", VStr "2.0");
                                     ("result", VDict props) ] ])%list w)
          else (Raise OSError, w)
      | Raise e => (Raise e, w)
      end.
Proof.
  intros Hm. unfold handle_request, bindM, lift. rewrite Hm.
  cbn -[get_properties]. unfold current_properties, write.
  destruct (get_properties (w_device w)) as [props | e]; cbn [bind];
    [| reflexivity].
  destruct (w_stdout_open w); reflexivity.
Qed.

Lemma get_properties_request_is_answered_witness :
  handle_request sample_perform
      (request_of None "Plugin.Stream.Player.GetProperties" (Some (VList [])))
      (sample_world STOPPED)
    = match get_properties (w_device (sample_world STOPPED)) with
      | Ok props =>
          if w_stdout_open (sample_world STOPPED)
          then (Ok tt,
                set_stdout
                  (w_stdout (sample_world STOPPED)
                   ++ [ dumps_line [ ("id", VInt 1); ("jsonrpc", VStr "2.0");
                                     ("result", VDict props) ] ])%list
                  (sample_world STOPPED))
          else (Raise OSError, sample_world STOPPED)
      | Raise e => (Raise e, sample_world STOPPED)
      end.
Proof.
  apply (get_properties_request_is_answered sample_perform
           (request_of None "Plugin.Stream.Player.GetProperties" (Some (VList [])))
           (sample_world STOPPED)).
  reflexivity.
Defined.

Ltac grows :=
  first [ exists []; rewrite app_nil_r; repeat split; solve [reflexivity | cbn; lia]
        | eexists; split; [reflexivity |]; repeat split;
          solve [cbn; lia | intros E; discriminate E] ].

Ltac effect :=
  unfold request_effect; cbn;
  repeat match goal with
         | |- _ /\ _ => split
         end;
  first [reflexivity | grows].

Lemma effect_same (w : world) : request_effect w w.
Proof. effect. Qed.

Lemma handle_request_effect
    (perform : action -> DmrDevice -> result DmrDevice)
    (request : value) (w : world) :
  request_effect w (snd (handle_request perform request w)).
Proof.
  unfold handle_request, bindM, lift.
  destruct (getitem request "method") as [m | e]; [| apply effect_same].
  destruct (rsplit_unpack m) as [[i c] | e]; [| apply effect_same].
  destruct (negb (String.eqb i _SNAPCAST_PLAYER_INTERFACE)); [apply effect_same |].
  destruct (negb (existsb (String.eqb c) _SNAPCAST_SUPPORTED_COMMANDS));
    [apply effect_same |].
  cbn [SnapcastCommand_value].
  destruct (String.eqb_spec c "GetProperties") as [Eg | Eg].
  - subst c. cbn [String.eqb Ascii.eqb Bool.eqb].
    unfold current_properties, write, ret.
    destruct (get_properties (w_device w)) as [props | e]; cbn [bind];
      [| apply effect_same].
    destruct (w_stdout_open w) eqn:Ho; [| apply effect_same].
    effect.
  - unfold ret at 1.
    destruct (String.eqb c "Control"); [| apply effect_same].
    destruct (getitem request "params") as [params | e]; [| apply effect_same].
    destruct (getitem params "command") as [command | e]; [| apply effect_same].
    unfold send_control, bindM, lift, invoke, ret, write.
    destruct (control_method command (w_device w)) as [[a |] | e];
      [| | apply effect_same].
    + destruct (perform a (w_device w)) as [d | e]; [| effect].
      destruct (getitem request "id") as [id | e]; [| effect].
      cbn [w_stdout_open set_device set_invoked].
      destruct (w_stdout_open w) eqn:Ho; effect.
    + destruct (getitem request "id") as [id | e]; [| apply effect_same].
      destruct (w_stdout_open w) eqn:Ho; effect.
Qed.

(** X9. Whatever the line, one iteration of the loop writes at most one
    line, after those already written; invokes at most one renderer
    action; changes the renderer only through that action; and never
    touches the debouncer's task or the state of the output stream. *)
Theorem each_line_has_bounded_effect
    (perform : action -> DmrDevice -> result DmrDevice)
    (line : decoded) (w : world) :
  request_effect w (snd (handle_line perform line w)).
Proof.
  destruct line as [| request | e]; cbn [handle_line].
  - apply effect_same.
  - apply handle_request_effect.
  - apply effect_same.
Qed.

Lemma serve_effect
    (perform : action -> DmrDevice -> result DmrDevice)
    (lines : list decoded) (w : world) :
  (exists out : list outline,
      w_stdout (snd (serve perform lines w)) = (w_stdout w ++ out)%list
      /\ (length out <= length lines)%nat)
  /\ (exists acts : list action,
        w_invoked (snd (serve perform lines w)) = (w_invoked w ++ acts)%list
        /\ (length acts <= length lines)%nat)
  /\ w_task (snd (serve perform lines w)) = w_task w
  /\ w_pending (snd (serve perform lines w)) = w_pending w
  /\ w_created (snd (serve perform lines w)) = w_created w
  /\ w_stdout_open (snd (serve perform lines w)) = w_stdout_open w.
Proof.
  revert w. induction lines as [| line lines IH]; intros w.
  - cbn. repeat split; exists []; rewrite app_nil_r; split; auto.
  - assert (Hline : request_effect w (snd (handle_line perform line w))).
    { destruct line as [| request | e]; cbn [handle_line];
        [apply effect_same | apply handle_request_effect | apply effect_same]. }
    destruct Hline as [[out1 [Ho1 Hl1]] [[acts1 [Ha1 [Hn1 _]]] [Ht [Hp [Hc Hs]]]]].
    cbn [serve]. unfold bindM.
    destruct (handle_line perform line w) as [[[] | e] w1]; cbn [snd] in *.
    + destruct (IH w1) as [[out [Ho Hl]] [[acts [Ha Hn]] [Gt [Gp [Gc Gs]]]]].
      repeat split; try congruence.
      * exists (out1 ++ out)%list. rewrite Ho, Ho1, app_assoc, length_app.
        split; [reflexivity | cbn [length]; lia].
      * exists (acts1 ++ acts)%list. rewrite Ha, Ha1, app_assoc, length_app.
        split; [reflexivity | cbn [length]; lia].
    + repeat split; try assumption.
      * exists out1. split; [exact Ho1 | cbn [length]; lia].
      * exists acts1. split; [exact Ha1 | cbn [length]; lia].
Qed.

(** X10. [_run] announces itself before anything else: with a working output
    stream the ready notification, which has no params, is the first
    line it writes, followed by at most one line per inbound line; at
    most one action is invoked per inbound line, and the debouncer's task
    is never touched. If that first write fails, [_run] ends with
    [OSError] before any line is read. *)
Theorem run_announces_ready_first
    (perform : action -> DmrDevice -> result DmrDevice)
    (lines : list decoded) (w : world) :
  (w_stdout_open w = false -> _run perform lines w = (Raise OSError, w))
  /\ (w_stdout_open w = true ->
      exists (out : list outline) (acts : list action),
        w_stdout (snd (_run perform lines w))
          = (w_stdout w ++ ready_line :: out)%list
        /\ (length out <= length lines)%nat
        /\ w_invoked (snd (_run perform lines w)) = (w_invoked w ++ acts)%list
        /\ (length acts <= length lines)%nat
        /\ w_task (snd (_run perform lines w)) = w_task w
        /\ w_pending (snd (_run perform lines w)) = w_pending w
        /\ w_created (snd (_run perform lines w)) = w_created w).
Proof.
  unfold _run, bindM, write. split; intros Ho; rewrite Ho; [reflexivity |].
  set (w1 := set_stdout _ w).
  destruct (serve_effect perform lines w1)
    as [[out [Hout Hl]] [[acts [Hacts Hn]] [Ht [Hp [Hc _]]]]].
  exists out, acts. rewrite Hout, Hacts, Ht, Hp, Hc. subst w1.
  cbn [w_stdout w_invoked w_task w_pending w_created set_stdout].
  rewrite <- app_assoc. repeat split; assumption.
Qed.

Lemma run_announces_ready_first_witness :
  exists (out : list outline) (acts : list action),
    w_stdout (snd (_run sample_perform
                     [ JSONDecodeError; Decoded (control_request (Some (VInt 1)) "play") ]
                     (sample_world STOPPED)))
      = (w_stdout (sample_world STOPPED) ++ ready_line :: out)%list
    /\ (length out
        <= length [ JSONDecodeError;
                    Decoded (control_request (Some (VInt 1)) "play") ])%nat
    /\ w_invoked (snd (_run sample_perform
                         [ JSONDecodeError;
                           Decoded (control_request (Some (VInt 1)) "play") ]
                         (sample_world STOPPED)))
       = (w_invoked (sample_world STOPPED) ++ acts)%list
    /\ (length acts
        <= length [ JSONDecodeError;
                    Decoded (control_request (Some (VInt 1)) "play") ])%nat
    /\ w_task (snd (_run sample_perform
                      [ JSONDecodeError;
                        Decoded (control_request (Some (VInt 1)) "play") ]
                      (sample_world STOPPED)))
       = w_task (sample_world STOPPED)
    /\ w_pending (snd (_run sample_perform
                         [ JSONDecodeError;
                           Decoded (control_request (Some (VInt 1)) "play") ]
                         (sample_world STOPPED)))
       = w_pending (sample_world STOPPED)
    /\ w_created (snd (_run sample_perform
                         [ JSONDecodeError;
                           Decoded (control_request (Some (VInt 1)) "play") ]
                         (sample_world STOPPED)))
       = w_created (sample_world STOPPED).
Proof.
  apply (proj2 (run_announces_ready_first sample_perform
                  [ JSONDecodeError; Decoded (control_request (Some (VInt 1)) "play") ]
                  (sample_world STOPPED))).
  reflexivity.
Defined.

(** ** Notification debouncer *)

Lemma notification_has_params (d : DmrDevice) (props : list (string * value)) :
  get_properties d = Ok props ->
  jsonrpc_command _SNAPCAST_PLAYER_PROPERTIES (VDict props) = properties_line props.
Proof.
  unfold get_properties. destruct (volume_of d) as [v | e]; cbn [bind];
    intros H; [| discriminate H].
  injection H as <-. reflexivity.
Qed.

Lemma notify_writes (w : world) :
  (exists props,
      get_properties (w_device w) = Ok props
      /\ w_stdout_open w = true
      /\ snd (_notify w)
         = set_task None (set_stdout (w_stdout w ++ [ properties_line props ])%list w))
  \/ ((w_stdout_open w = false \/ exists e, get_properties (w_device w) = Raise e)
      /\ snd (_notify w) = w).
Proof.
  destruct (notify_outcome w) as [[props [Hp [Ho H]]] | H]; [left | right; exact H].
  exists props. rewrite <- (notification_has_params _ _ Hp). auto.
Qed.

(** One event of the debouncer: what it may change. *)
Lemma step_writes (ev : event) (w : world) :
  w_invoked (step ev w) = w_invoked w
  /\ (exists out : list outline,
        w_stdout (step ev w) = (w_stdout w ++ out)%list
        /\ (length out <= match ev with sleep_over _ => 1 | _ => 0 end)%nat
        /\ Forall (fun line => exists props, line = properties_line props) out)
  /\ (match ev with renderer_changed _ => False | _ => True end ->
      w_device (step ev w) = w_device w).
Proof.
  destruct ev as [vars | t | d | open]; cbn [step].
  - assert (H : callback vars w = w \/ callback vars w = create_task w).
    { destruct vars; cbn [callback]; [left; reflexivity |].
      destruct (w_task w); [left | right]; reflexivity. }
    destruct H as [H | H]; rewrite H; cbn; repeat split;
      exists []; rewrite app_nil_r; repeat split; auto.
  - unfold run_task. destruct (existsb (Nat.eqb t) (w_pending w)).
    + set (w' := set_pending _ w).
      destruct (notify_writes w') as [[props [_ [_ H]]] | [_ H]]; rewrite H.
      * cbn. repeat split. exists [ properties_line props ]. repeat split; auto.
        constructor; [exists props; reflexivity | constructor].
      * cbn. repeat split. exists []. rewrite app_nil_r. repeat split; auto.
    + repeat split. exists []. rewrite app_nil_r. repeat split; auto.
  - cbn. repeat split; [| intros []].
    exists []. rewrite app_nil_r. repeat split; auto.
  - cbn. repeat split. exists []. rewrite app_nil_r. repeat split; auto.
Qed.

(** X11. Whatever happens to the debouncer, it never invokes a renderer
    action; what it writes comes after what was written, is at most one
    line per sleep that ended, and every such line is a properties
    notification with its params; and it never changes the renderer
    itself. *)
Theorem debouncer_only_notifies (evs : list event) (w : world) :
  w_invoked (run_events evs w) = w_invoked w
  /\ (exists out : list outline,
        w_stdout (run_events evs w) = (w_stdout w ++ out)%list
        /\ (length out
            <= length (filter (fun ev => match ev with
                                         | sleep_over _ => true
                                         | _ => false
                                         end) evs))%nat
        /\ Forall (fun line => exists props, line = properties_line props) out)
  /\ (forallb (fun ev => match ev with
                         | renderer_changed _ => false
                         | _ => true
                         end) evs = true ->
      w_device (run_events evs w) = w_device w).
Proof.
  unfold run_events. revert w.
  induction evs as [| ev evs IH]; intros w; cbn [fold_left filter forallb length].
  - repeat split. exists []. rewrite app_nil_r. repeat split; auto.
  - destruct (IH (step ev w)) as [Hi [[out [Ho [Hl Hf]]] Hd]].
    destruct (step_writes ev w) as [Si [[out1 [So [Sl Sf]]] Sd]].
    repeat split.
    + rewrite Hi. exact Si.
    + exists (out1 ++ out)%list. repeat split.
      * rewrite Ho, So, app_assoc. reflexivity.
      * rewrite length_app. destruct ev; cbn [length] in *; lia.
      * apply Forall_app. split; assumption.
    + intros Hall. apply andb_prop in Hall. destruct Hall as [Hev Hall].
      rewrite (Hd Hall). apply Sd. destruct ev; try exact I. discriminate Hev.
Qed.

Lemma debouncer_only_notifies_witness :
  w_device (run_events
              [ renderer_event [ "Volume" ]; stdout_status false;
                sleep_over 0%nat; stdout_status true ]
              (sample_world PLAYING))
    = w_device (sample_world PLAYING).
Proof.
  apply (proj2 (proj2 (debouncer_only_notifies
                         [ renderer_event [ "Volume" ]; stdout_status false;
                           sleep_over 0%nat; stdout_status true ]
                         (sample_world PLAYING)))).
  reflexivity.
Defined.

(** A burst that meets a waiting task changes the renderer only. *)
Lemma burst_while_armed (evs : list event) (d : DmrDevice) (out : list outline)
    (open : bool) (t : nat) (ts : list nat) (c : nat) (inv : list action) :
  is_burst evs = true ->
  run_events evs
      {| w_device := d; w_stdout := out; w_stdout_open := open;
         w_task := Some t; w_pending := ts; w_created := c; w_invoked := inv |}
    = {| w_device := burst_device evs d; w_stdout := out; w_stdout_open := open;
         w_task := Some t; w_pending := ts; w_created := c; w_invoked := inv |}.
Proof.
  unfold run_events, burst_device. revert d.
  induction evs as [| ev evs IH]; intros d Hb; cbn [fold_left]; [reflexivity |].
  cbn [is_burst forallb] in Hb. apply andb_prop in Hb. destruct Hb as [Hev Hb].
  destruct ev as [vars | u | d' | o]; try discriminate Hev.
  - destruct vars; cbn [step callback w_task]; apply IH; exact Hb.
  - cbn [step set_device]. cbn. apply IH. exact Hb.
Qed.

(** A burst that meets an idle debouncer creates one task if it fires,
    and none if it does not. *)
Lemma burst_while_idle (evs : list event) (d : DmrDevice) (out : list outline)
    (open : bool) (c : nat) (inv : list action) :
  is_burst evs = true ->
  run_events evs
      {| w_device := d; w_stdout := out; w_stdout_open := open;
         w_task := None; w_pending := []; w_created := c; w_invoked := inv |}
    = if fires evs
      then {| w_device := burst_device evs d; w_stdout := out;
              w_stdout_open := open; w_task := Some c; w_pending := [ c ];
              w_created := S c; w_invoked := inv |}
      else {| w_device := burst_device evs d; w_stdout := out;
              w_stdout_open := open; w_task := None; w_pending := [];
              w_created := c; w_invoked := inv |}.
Proof.
  revert d. induction evs as [| ev evs IH]; intros d Hb; [reflexivity |].
  cbn [is_burst forallb] in Hb. apply andb_prop in Hb. destruct Hb as [Hev Hb].
  destruct ev as [vars | u | d' | o]; try discriminate Hev.
  - destruct vars as [| v vars].
    + apply (IH d Hb).
    + cbn [fires existsb orb].
      change (run_events (renderer_event (v :: vars) :: evs) ?w)
        with (run_events evs (step (renderer_event (v :: vars)) w)).
      cbn [step callback w_task create_task]. cbn.
      apply (burst_while_armed evs d out open c [ c ] (S c) inv Hb).
  - apply (IH d' Hb).
Qed.

Lemma burst_device_cases (evs : list event) (d : DmrDevice) :
  burst_device evs d = d \/ In (renderer_changed (burst_device evs d)) evs.
Proof.
  unfold burst_device. revert d.
  induction evs as [| ev evs IH]; intros d; cbn [fold_left]; [left; reflexivity |].
  destruct ev as [vars | u | d' | o];
    try (destruct (IH d) as [H | H]; [left; exact H | right; right; exact H]).
  destruct (IH d') as [H | H].
  - right. left. rewrite H. reflexivity.
  - right. right. exact H.
Qed.

Lemma run_events_app (evs evs' : list event) (w : world) :
  run_events (evs ++ evs') w = run_events evs' (run_events evs w).
Proof. unfold run_events. apply fold_left_app. Qed.

(** One round: an idle debouncer, a burst that fires, the sleep of its
    task ending while the output stream works. *)
Lemma round_outcome (evs : list event) (w : world) (props : list (string * value)) :
  w_task w = None -> w_pending w = [] -> w_stdout_open w = true ->
  is_burst evs = true -> fires evs = true ->
  get_properties (burst_device evs (w_device w)) = Ok props ->
  run_events (evs ++ [ sleep_over (w_created w) ]) w
    = set_created (S (w_created w))
        (set_stdout (w_stdout w ++ [ properties_line props ])%list
           (set_device (burst_device evs (w_device w)) w)).
Proof.
  intros Ht Hp Ho Hb Hf Hprops. rewrite run_events_app.
  destruct w as [d out open task pending c inv]. cbn in Ht, Hp, Ho. subst.
  rewrite (burst_while_idle evs d out true c inv Hb). rewrite Hf.
  cbn [w_device w_created] in *.
  unfold run_events. cbn [fold_left step]. unfold run_task.
  cbn [w_pending existsb filter]. rewrite !Nat.eqb_refl. cbn [orb negb].
  unfold _notify, bindM, current_properties, write. cbn [set_pending w_device].
  rewrite Hprops. cbn [bind w_stdout_open].
  rewrite (notification_has_params _ _ Hprops). reflexivity.
Qed.

(** X12. Coalescing. On an idle debouncer, a burst of renderer events of
    which at least one carries a state variable, however many they are,
    gives exactly one notification when the sleep of its task ends: the
    properties of the renderer as it is at that moment, not as it was at
    the first event; afterwards the debouncer is idle again. A burst of
    events that carry no state variable creates no task, so nothing is
    written. *)
Theorem burst_gives_one_notification (evs : list event) (w : world) :
  w_task w = None -> w_pending w = [] -> is_burst evs = true ->
  (fires evs = true -> w_stdout_open w = true ->
   forall props : list (string * value),
     get_properties (burst_device evs (w_device w)) = Ok props ->
     run_events (evs ++ [ sleep_over (w_created w) ]) w
       = set_created (S (w_created w))
           (set_stdout (w_stdout w ++ [ properties_line props ])%list
              (set_device (burst_device evs (w_device w)) w)))
  /\ (fires evs = false ->
      forall t : nat,
        run_events (evs ++ [ sleep_over t ]) w
          = set_device (burst_device evs (w_device w)) w).
Proof.
  intros Ht Hp Hb. split.
  - intros Hf Ho props Hprops. apply round_outcome; assumption.
  - intros Hf t. rewrite run_events_app.
    destruct w as [d out open task pending c inv]. cbn in Ht, Hp. subst.
    rewrite (burst_while_idle evs d out open c inv Hb). rewrite Hf.
    reflexivity.
Qed.

Lemma burst_gives_one_notification_witness :
  run_events
      ([ renderer_event [ "TransportState" ];
         renderer_changed (sample_device (Some PAUSED_PLAYBACK) None);
         renderer_event [ "Volume"; "Mute" ]; renderer_event [] ]
       ++ [ sleep_over (w_created (sample_world PLAYING)) ])
      (sample_world PLAYING)
    = set_created (S (w_created (sample_world PLAYING)))
        (set_stdout
           (w_stdout (sample_world PLAYING)
            ++ [ properties_line
                   [ ("playbackStatus", VStr "paused"); ("loopStatus", VStr "none");
                     ("shuffle", VBool false); ("volume", VInt 0);
                     ("mute", VBool false); ("rate", VFloat 1%float);
                     ("position", VInt 12); ("canGoNext", VBool true);
                     ("canGoPrevious", VBool true); ("canPlay", VBool true);
                     ("canPause", VBool true); ("canSeek", VBool false);
                     ("canControl", VBool true);
                     ("metadata",
                       VDict
                         [ ("duration", VInt 215);
                           ("artist", VList [ VStr "Artist" ]);
                           ("album", VStr "Album");
                           ("albumArtist", VList [ VStr "" ]);
                           ("title", VStr "Title"); ("artUrl", VStr "") ]) ] ])%list
           (set_device
              (burst_device
                 [ renderer_event [ "TransportState" ];
                   renderer_changed (sample_device (Some PAUSED_PLAYBACK) None);
                   renderer_event [ "Volume"; "Mute" ]; renderer_event [] ]
                 (w_device (sample_world PLAYING)))
              (sample_world PLAYING))).
Proof.
  apply (proj1 (burst_gives_one_notification
                  [ renderer_event [ "TransportState" ];
                    renderer_changed (sample_device (Some PAUSED_PLAYBACK) None);
                    renderer_event [ "Volume"; "Mute" ]; renderer_event [] ]
                  (sample_world PLAYING) eq_refl eq_refl eq_refl));
    reflexivity.
Defined.

Lemma rounds_step (bursts : list (list event)) (w : world) (n : nat) :
  w_task w = None -> w_pending w = [] -> w_stdout_open w = true ->
  mappable (w_device w) ->
  Forall (fun b => is_burst b = true /\ fires b = true /\ burst_mappable b) bursts ->
  w_created w = n ->
  length (w_stdout (run_events (rounds bursts n) w))
    = (length (w_stdout w) + length bursts)%nat
  /\ w_task (run_events (rounds bursts n) w) = None
  /\ w_pending (run_events (rounds bursts n) w) = []
  /\ w_created (run_events (rounds bursts n) w) = (n + length bursts)%nat.
Proof.
  revert w n. induction bursts as [| b bursts IH]; intros w n Ht Hp Ho Hm Hall Hc.
  - cbn. repeat split; auto; lia.
  - inversion Hall as [| b' bs' [Hb [Hf Hbm]] Hrest]; subst b' bs'.
    assert (Hmap : mappable (burst_device b (w_device w))).
    { destruct (burst_device_cases b (w_device w)) as [E | E];
        [rewrite E; exact Hm | apply Hbm; exact E]. }
    destruct Hmap as [props Hprops].
    cbn [rounds].
    change (b ++ sleep_over n :: rounds bursts (S n))%list
      with (b ++ [ sleep_over n ] ++ rounds bursts (S n))%list.
    rewrite app_assoc, run_events_app. rewrite <- Hc.
    rewrite (round_outcome b w props Ht Hp Ho Hb Hf Hprops).
    set (w1 := set_created _ _).
    destruct (IH w1 (S (w_created w))) as [H1 [H2 [H3 H4]]];
      try reflexivity; try assumption.
    + subst w1. cbn. exists props. exact Hprops.
    + rewrite H1, H2, H3, H4. subst w1. cbn [w_stdout set_created set_stdout length].
      rewrite length_app. cbn [length]. repeat split; lia.
Qed.

(** X13. No starvation. Bursts that each fire, each followed by the end of
    the sleep of its task, give as many notifications as there are
    bursts while the output stream works and the renderers can be
    mapped; the debouncer ends idle, having created one task per
    burst. *)
Theorem each_round_is_notified (bursts : list (list event)) (w : world) :
  w_task w = None -> w_pending w = [] -> w_stdout_open w = true ->
  mappable (w_device w) ->
  Forall (fun b => is_burst b = true /\ fires b = true /\ burst_mappable b) bursts ->
  length (w_stdout (run_events (rounds bursts (w_created w)) w))
    = (length (w_stdout w) + length bursts)%nat
  /\ w_task (run_events (rounds bursts (w_created w)) w) = None
  /\ w_pending (run_events (rounds bursts (w_created w)) w) = []
  /\ w_created (run_events (rounds bursts (w_created w)) w)
     = (w_created w + length bursts)%nat.
Proof.
  intros Ht Hp Ho Hm Hall. apply rounds_step; auto.
Qed.

Lemma each_round_is_notified_witness :
  length (w_stdout
            (run_events
               (rounds
                  [ [ renderer_event [ "Volume" ] ];
                    [ renderer_changed (sample_device (Some STOPPED) None);
                      renderer_event [ "TransportState" ] ] ]
                  (w_created (sample_world PLAYING)))
               (sample_world PLAYING)))
    = (length (w_stdout (sample_world PLAYING))
       + length [ [ renderer_event [ "Volume" ] ];
                  [ renderer_changed (sample_device (Some STOPPED) None);
                    renderer_event [ "TransportState" ] ] ])%nat.
Proof.
  apply (each_round_is_notified
           [ [ renderer_event [ "Volume" ] ];
             [ renderer_changed (sample_device (Some STOPPED) None);
               renderer_event [ "TransportState" ] ] ]
           (sample_world PLAYING)).
  - reflexivity.
  - reflexivity.
  - reflexivity.
  - eexists. vm_compute. reflexivity.
  - repeat constructor.
    + intros d [H | []]. discriminate H.
    + intros d [H | [H | []]]; [| discriminate H].
      injection H as <-. eexists. vm_compute. reflexivity.
Defined.
